(** * pdf-qa-app: the session state of the two server variants

    The repository holds two near-identical fastify servers:
    - [src/index.js], the multi-document server, which keeps the extracted
      texts in the object [pdfContexts] keyed by file name;
    - the single-document server (the second source file), which keeps one
      string [pdfContext].
    Both keep a derived [systemPrompt] and the array [conversationHistory],
    and expose [POST /upload] and [POST /ask].

    The route handlers are embedded as functions on the three globals.
    The two collaborators are kept abstract: the PDF text extractor
    ([PDFParser]) is a function from the uploaded bytes to the text or to the
    message of the error it throws; the HTTP call to the model API
    ([axios.post] in [callClaudeAPI]) is supplied per request, and every
    handler returns the list of calls it made to it.  Requests are handled
    one at a time; multipart decoding is taken as done (the handlers start
    from the decoded file parts and from a string [question]). *)

From Stdlib Require Import String Ascii List Bool Arith NArith Lia.
From Stdlib Require Import Permutation.
Import ListNotations.
Open Scope string_scope.
Open Scope list_scope.

(** ** The JavaScript primitives the handlers use *)

Module JS.

(** [!s] on a string: the empty string is the only falsy string. *)
Definition not (s : string) : bool := String.eqb s "".

(** [Array.prototype.join] on an array of strings. *)
Fixpoint join (sep : string) (l : list string) : string :=
  match l with
  | [] => ""
  | x :: rest =>
      match rest with
      | [] => x
      | _ :: _ => (x ++ sep ++ join sep rest)%string
      end
  end.

(** White space as [String.prototype.trim] sees it, on the ASCII range:
    tab, line feed, vertical tab, form feed, carriage return, space. *)
Definition is_white_space (c : ascii) : bool :=
  let n := nat_of_ascii c in
  ((9 <=? n)%nat && (n <=? 13)%nat) || (n =? 32)%nat.

Fixpoint trim_start (s : string) : string :=
  match s with
  | EmptyString => EmptyString
  | String c r => if is_white_space c then trim_start r else s
  end.

Fixpoint trim_end (s : string) : string :=
  match s with
  | EmptyString => EmptyString
  | String c r =>
      match trim_end r with
      | EmptyString => if is_white_space c then EmptyString else String c EmptyString
      | r' => String c r'
      end
  end.

(** [s.trim()], used by the page script before it posts a question. *)
Definition trim (s : string) : string := trim_end (trim_start s).

(** *** Plain objects used as string-keyed maps

    An object literal [{}] whose properties are all set by
    [o[k] = v] with string values.  The list holds the own properties in
    creation order. *)
Definition object := list (string * string).

Definition has_own (k : string) (o : object) : bool :=
  existsb (fun p => String.eqb (fst p) k) o.

Fixpoint overwrite (k v : string) (o : object) : object :=
  match o with
  | [] => []
  | (k', v') :: rest =>
      if String.eqb k' k then (k', v) :: rest else (k', v') :: overwrite k v rest
  end.

(** [o[k] = v].  An existing property keeps its place; a new one is created
    last.  The key [__proto__] reaches the accessor inherited from
    [Object.prototype], whose setter ignores a string: no property is
    created. *)
Definition set (k v : string) (o : object) : object :=
  if String.eqb k "__proto__" then o
  else if has_own k o then overwrite k v o
  else o ++ [(k, v)].

Definition digit (c : ascii) : option N :=
  let n := N_of_ascii c in
  if ((48 <=? n) && (n <=? 57))%N then Some (n - 48)%N else None.

Fixpoint decimal (acc : N) (s : string) : option N :=
  match s with
  | EmptyString => Some acc
  | String c r =>
      match digit c with
      | Some d => decimal (acc * 10 + d)%N r
      | None => None
      end
  end.

(** A key is an array index when it is the canonical decimal form of an
    integer between 0 and 2^32 - 2. *)
Definition array_index (k : string) : option N :=
  match k with
  | EmptyString => None
  | String c r =>
      if Ascii.eqb c "0" then
        match r with EmptyString => Some 0%N | _ => None end
      else
        match decimal 0 k with
        | Some n => if (n <=? 4294967294)%N then Some n else None
        | None => None
        end
  end.

Fixpoint insert_index (n : N) (p : string * string)
    (l : list (N * (string * string))) : list (N * (string * string)) :=
  match l with
  | [] => [(n, p)]
  | (m, q) :: rest =>
      if (n <=? m)%N then (n, p) :: l else (m, q) :: insert_index n p rest
  end.

Definition index_properties (o : object) : list (N * (string * string)) :=
  fold_right
    (fun p acc =>
       match array_index (fst p) with
       | Some n => insert_index n p acc
       | None => acc
       end) [] o.

Definition string_properties (o : object) : object :=
  filter (fun p => match array_index (fst p) with Some _ => false | None => true end) o.

(** The own properties in the order every enumeration follows: array
    indices in ascending numeric order, then the other keys in creation
    order. *)
Definition own_properties (o : object) : object :=
  map snd (index_properties o) ++ string_properties o.

Definition keys (o : object) : list string := map fst (own_properties o).
Definition values (o : object) : list string := map snd (own_properties o).

End JS.

(** ** Data shared by the two servers *)

Inductive Role : Type := user | assistant.

(** An element of [conversationHistory]: [{ role, content }]. *)
Record Turn : Type := mkTurn { role : Role; content : string }.

(** The object a handler returns: [{ success, message }] or
    [{ success, answer }]. *)
Record Reply : Type := mkReply {
  success : bool;
  message : option string;
  answer : option string
}.

(** The uploaded file part, after [file.toBuffer()]. *)
Record File : Type := mkFile { filename : string; buffer : list Byte.byte }.

(** What [PDFParser(buffer)] settles to: [inl text] for [pdf.text], [inr m]
    for a rejection whose [error.message] is [m]. *)
Definition Extractor : Type := list Byte.byte -> string + string.

(** What the body of the [try] in [callClaudeAPI] yields for the posted
    [messages] and [system]: [inl text] for [response.data.content[0].text],
    [inr d] when it throws, [d] being the text the [catch] appends
    ([JSON.stringify(error.response.data)] or [error.message]). *)
Definition Provider : Type := list Turn -> string -> string + string.

(** The part of the request body that depends on the session. *)
Record ApiCall : Type := mkApiCall { messages : list Turn; system : string }.

Definition callClaudeAPI (post : Provider) (messages : list Turn) (systemPrompt : string)
  : string + string :=
  match post messages systemPrompt with
  | inl text => inl text
  | inr detail => inr ("Failed to get response from Claude API: " ++ detail)%string
  end.

Definition user_turn (question : string) : Turn := {| role := user; content := question |}.
Definition assistant_turn (text : string) : Turn := {| role := assistant; content := text |}.

Definition failure (m : string) : Reply :=
  {| success := false; message := Some m; answer := None |}.
Definition success_message (m : string) : Reply :=
  {| success := true; message := Some m; answer := None |}.
Definition success_answer (a : string) : Reply :=
  {| success := true; message := None; answer := Some a |}.

(** ** The multi-document server, [src/index.js] *)

Module Multi.

Record state : Type := mkState {
  pdfContexts : JS.object;
  systemPrompt : string;
  conversationHistory : list Turn
}.

(** [let pdfContexts = {}; let systemPrompt = ''; let conversationHistory = [];] *)
Definition initial : state :=
  {| pdfContexts := []; systemPrompt := ""; conversationHistory := [] |}.

(** The result of [POST /ask]: the reply, the globals afterwards and the
    calls made to the model API. *)
Record outcome : Type := mkOutcome {
  response : Reply;
  after : state;
  calls : list ApiCall
}.

Definition build_prompt (ctx : JS.object) : string :=
  ("You are an assistant that answers questions based on the following PDF contents: "
     ++ JS.join " " (JS.values ctx))%string.

Section Handlers.
Variable PDFParser : Extractor.

(** The [for await (const file of files)] loop, on the globals it
    touches: [pdfContexts] and the local [uploadedFiles]. *)
Fixpoint upload_loop (files : list File) (ctx : JS.object) (uploadedFiles : list string)
  : JS.object * list string :=
  match files with
  | [] => (ctx, uploadedFiles)
  | file :: rest =>
      match PDFParser (buffer file) with
      | inl text =>
          upload_loop rest (JS.set (filename file) text ctx)
                      (uploadedFiles ++ [filename file])
      | inr _ => upload_loop rest ctx uploadedFiles
      end
  end.

(** [POST /upload] *)
Definition upload (files : list File) (s : state) : Reply * state :=
  let (ctx, uploadedFiles) := upload_loop files (pdfContexts s) [] in
  (success_message
     ("PDFs uploaded and processed successfully: " ++ JS.join ", " uploadedFiles)%string,
   {| pdfContexts := ctx;
      systemPrompt := build_prompt ctx;
      conversationHistory := [] |}).

(** [POST /ask] *)
Definition ask (post : Provider) (question : string) (s : state) : outcome :=
  if JS.not question then
    {| response := failure "No question provided."; after := s; calls := [] |}
  else if (length (JS.keys (pdfContexts s)) =? 0)%nat then
    {| response := failure "Please upload at least one PDF first.";
       after := s; calls := [] |}
  else
    let pushed := conversationHistory s ++ [user_turn question] in
    let s1 := {| pdfContexts := pdfContexts s;
                 systemPrompt := systemPrompt s;
                 conversationHistory := pushed |} in
    let call := {| messages := pushed; system := systemPrompt s |} in
    match callClaudeAPI post pushed (systemPrompt s) with
    | inl text =>
        {| response := success_answer text;
           after := {| pdfContexts := pdfContexts s;
                       systemPrompt := systemPrompt s;
                       conversationHistory := pushed ++ [assistant_turn text] |};
           calls := [call] |}
    | inr m =>
        {| response := failure m; after := s1; calls := [call] |}
    end.

(** A request to the server, and the session over a sequence of them. *)
Inductive request : Type :=
| Upload (files : list File)
| Ask (post : Provider) (question : string).

Definition handle (s : state) (r : request) : state :=
  match r with
  | Upload files => snd (upload files s)
  | Ask post question => after (ask post question s)
  end.

Definition run (rs : list request) (s : state) : state := fold_left handle rs s.

(** A run of [POST /ask] requests alone, each with its own API behaviour. *)
Definition ask_all (l : list (Provider * string)) (s : state) : state :=
  fold_left (fun s a => after (ask (fst a) (snd a) s)) l s.

(** The (file name, text) pairs of a batch whose extraction succeeds. *)
Fixpoint extracted (files : list File) : list (string * string) :=
  match files with
  | [] => []
  | file :: rest =>
      match PDFParser (buffer file) with
      | inl text => (filename file, text) :: extracted rest
      | inr _ => extracted rest
      end
  end.

Definition extracted_of (r : request) : list (string * string) :=
  match r with
  | Upload files => extracted files
  | Ask _ _ => []
  end.

(** [ctx[name] = text] for each pair in turn. *)
Definition store (ctx : JS.object) (docs : list (string * string)) : JS.object :=
  fold_left (fun o d => JS.set (fst d) (snd d) o) docs ctx.

End Handlers.

End Multi.

(** ** The single-document server *)

Module Single.

Record state : Type := mkState {
  pdfContext : string;
  systemPrompt : string;
  conversationHistory : list Turn
}.

(** [let pdfContext = ''; let systemPrompt = ''; let conversationHistory = [];] *)
Definition initial : state :=
  {| pdfContext := ""; systemPrompt := ""; conversationHistory := [] |}.

Record outcome : Type := mkOutcome {
  response : Reply;
  after : state;
  calls : list ApiCall
}.

Definition build_prompt (text : string) : string :=
  ("You are an assistant that answers questions based on the following PDF content: "
     ++ text)%string.

Section Handlers.
Variable PDFParser : Extractor.

(** [POST /upload]: the three assignments are inside the [try]; only
    [PDFParser] can throw, before any of them. *)
Definition upload (buf : list Byte.byte) (s : state) : Reply * state :=
  match PDFParser buf with
  | inl text =>
      (success_message "PDF uploaded and processed successfully.",
       {| pdfContext := text;
          systemPrompt := build_prompt text;
          conversationHistory := [] |})
  | inr m => (failure ("Error processing PDF: " ++ m)%string, s)
  end.

(** [POST /ask] *)
Definition ask (post : Provider) (question : string) (s : state) : outcome :=
  if JS.not question then
    {| response := failure "No question provided."; after := s; calls := [] |}
  else if JS.not (pdfContext s) then
    {| response := failure "Please upload a PDF first."; after := s; calls := [] |}
  else
    let pushed := conversationHistory s ++ [user_turn question] in
    let s1 := {| pdfContext := pdfContext s;
                 systemPrompt := systemPrompt s;
                 conversationHistory := pushed |} in
    let call := {| messages := pushed; system := systemPrompt s |} in
    match callClaudeAPI post pushed (systemPrompt s) with
    | inl text =>
        {| response := success_answer text;
           after := {| pdfContext := pdfContext s;
                       systemPrompt := systemPrompt s;
                       conversationHistory := pushed ++ [assistant_turn text] |};
           calls := [call] |}
    | inr m =>
        {| response := failure m; after := s1; calls := [call] |}
    end.

Inductive request : Type :=
| Upload (buf : list Byte.byte)
| Ask (post : Provider) (question : string).

Definition handle (s : state) (r : request) : state :=
  match r with
  | Upload buf => snd (upload buf s)
  | Ask post question => after (ask post question s)
  end.

Definition run (rs : list request) (s : state) : state := fold_left handle rs s.

(** A run of [POST /ask] requests alone, each with its own API behaviour. *)
Definition ask_all (l : list (Provider * string)) (s : state) : state :=
  fold_left (fun s a => after (ask (fst a) (snd a) s)) l s.

(** The text of the last upload of the sequence whose extraction
    succeeds. *)
Fixpoint last_extracted (rs : list request) (found : option string) : option string :=
  match rs with
  | [] => found
  | Upload buf :: rest =>
      match PDFParser buf with
      | inl text => last_extracted rest (Some text)
      | inr _ => last_extracted rest found
      end
  | Ask _ _ :: rest => last_extracted rest found
  end.

End Handlers.

End Single.

(** ** The page script's guard in [askQuestion]

    [const question = questionInput.value.trim(); if (!question) { alert; return; }]:
    the value posted to [/ask], if any. *)
Definition askQuestion_posts (input : string) : option string :=
  let question := JS.trim input in
  if JS.not question then None else Some question.

(** ** Shapes of a transcript *)

Definition starts_with_user (h : list Turn) : Prop :=
  match h with
  | [] => True
  | t :: _ => role t = user
  end.

Definition assistant_follows_user (h : list Turn) : Prop :=
  forall i t, nth_error h i = Some t -> role t = assistant ->
    exists j u, i = S j /\ nth_error h j = Some u /\ role u = user.

(** The same shape as a check: [prev] tells whether the turn before the
    list is a user turn. *)
Fixpoint shape_ok (prev : bool) (h : list Turn) : bool :=
  match h with
  | [] => true
  | t :: rest =>
      match role t with
      | user => shape_ok true rest
      | assistant => prev && shape_ok false rest
      end
  end.

(** ** The value of an own property

    [o[k]] when [k] is an own property of [o]; [None] when it is not. *)
Definition own_property (o : JS.object) (k : string) : option string :=
  match find (fun p => String.eqb (fst p) k) o with
  | Some p => Some (snd p)
  | None => None
  end.

(** ** The page scripts served by [GET /]

    The scripts are embedded on the part of the document they touch: the
    [uploadedFiles] set and the names rendered in [#fileList] (multi-document
    page only), the value of [#questionInput], the message divs appended to
    [#chatContainer] and the alerts shown.  [fetch] followed by
    [response.json()] is a parameter that acts on the world outside the page:
    it yields the reply object, or the message of the error thrown. *)

Module Page.

(** A file picked in the browser: [file.name], [file.size] and its bytes. *)
Record BrowserFile : Type := mkBrowserFile {
  name : string;
  size : N;
  data : list Byte.byte
}.

(** A div appended by [addMessageToChat]: [className] and [textContent]. *)
Record Bubble : Type := mkBubble { className : string; textContent : string }.

Record state : Type := mkState {
  uploadedFiles : list string;
  fileList : list string;
  questionInput : string;
  chat : list Bubble;
  alerts : list string
}.

Definition initial : state :=
  {| uploadedFiles := []; fileList := []; questionInput := "";
     chat := []; alerts := [] |}.

(** String concatenation with a property that may be [undefined]. *)
Definition to_string (v : option string) : string :=
  match v with
  | Some s => s
  | None => "undefined"
  end.

(** Assignment to [textContent]: [undefined] gives the empty text. *)
Definition as_text (v : option string) : string :=
  match v with
  | Some s => s
  | None => ""
  end.

Definition alert (m : string) (p : state) : state :=
  {| uploadedFiles := uploadedFiles p; fileList := fileList p;
     questionInput := questionInput p; chat := chat p;
     alerts := alerts p ++ [m] |}.

Definition addMessageToChat (role content : string) (p : state) : state :=
  let className :=
    if String.eqb role "user" then "bg-blue-100 p-2 rounded mb-2"
    else "bg-green-100 p-2 rounded mb-2" in
  {| uploadedFiles := uploadedFiles p; fileList := fileList p;
     questionInput := questionInput p;
     chat := chat p ++ [{| className := className; textContent := content |}];
     alerts := alerts p |}.

(** [Set.prototype.add] and [Set.prototype.delete] on a set of strings kept
    in insertion order. *)
Definition set_add (x : string) (l : list string) : list string :=
  if existsb (String.eqb x) l then l else l ++ [x].


(** [updateFileList]: one item per name of the set, in its order. *)
Definition updateFileList (p : state) : state :=
  {| uploadedFiles := uploadedFiles p; fileList := uploadedFiles p;
     questionInput := questionInput p; chat := chat p; alerts := alerts p |}.


(** The [for (let file of files)] loop of [handleFileUpload], on the local
    [formData] and the page. *)
Fixpoint append_files (files : list BrowserFile) (formData : list File) (p : state)
  : list File * state :=
  match files with
  | [] => (formData, p)
  | file :: rest =>
      if (size file <=? 10 * 1024 * 1024)%N then
        append_files rest
          (formData ++ [{| filename := name file; buffer := data file |}])
          {| uploadedFiles := set_add (name file) (uploadedFiles p);
             fileList := fileList p; questionInput := questionInput p;
             chat := chat p; alerts := alerts p |}
      else
        append_files rest formData
          (alert (name file ++ " is too large. Please upload files smaller than 10MB.")%string
                 p)
  end.

(** The test of the loop, and the part appended for a file. *)
Definition within_limit (file : BrowserFile) : bool :=
  (size file <=? 10 * 1024 * 1024)%N.

Definition part (file : BrowserFile) : File :=
  {| filename := name file; buffer := data file |}.

Definition too_large (file : BrowserFile) : string :=
  (name file ++ " is too large. Please upload files smaller than 10MB.")%string.

Section Scripts.
Variable World : Type.

(** [handleFileUpload(files)] of the multi-document page. *)
Definition handleFileUpload (fetch : list File -> World -> (Reply + string) * World)
    (files : list BrowserFile) (p : state) (w : World) : state * World :=
  let (formData, p1) := append_files files [] p in
  let p2 := updateFileList p1 in
  match fetch formData w with
  | (inl result, w') =>
      (if success result then
         addMessageToChat "system"
           "PDFs uploaded successfully. You can now ask questions about their content." p2
       else alert (to_string (message result)) p2,
       w')
  | (inr m, w') => (alert ("Error uploading PDF: " ++ m)%string p2, w')
  end.

(** [uploadPDF()] of the single-document page; [files] is
    [fileInput.files]. *)
Definition uploadPDF (fetch : File -> World -> (Reply + string) * World)
    (files : list BrowserFile) (p : state) (w : World) : state * World :=
  match files with
  | [] => (alert "Please select a PDF file" p, w)
  | file :: _ =>
      match fetch {| filename := name file; buffer := data file |} w with
      | (inl result, w') =>
          let p1 := alert (to_string (message result)) p in
          (if success result then
             addMessageToChat "system"
               "PDF uploaded successfully. You can now ask questions about its content." p1
           else p1,
           w')
      | (inr m, w') => (alert ("Error uploading PDF: " ++ m)%string p, w')
      end
  end.

(** [askQuestion()], the same in both pages. *)
Definition askQuestion (fetch : string -> World -> (Reply + string) * World)
    (p : state) (w : World) : state * World :=
  match askQuestion_posts (questionInput p) with
  | None => (alert "Please enter a question" p, w)
  | Some question =>
      let p1 := addMessageToChat "user" question p in
      match fetch question w with
      | (inl result, w') =>
          let p2 :=
            if success result then addMessageToChat "assistant" (as_text (answer result)) p1
            else addMessageToChat "system" ("Error: " ++ to_string (message result))%string p1 in
          ({| uploadedFiles := uploadedFiles p2; fileList := fileList p2;
              questionInput := ""; chat := chat p2; alerts := alerts p2 |},
           w')
      | (inr m, w') =>
          (addMessageToChat "system" ("Error asking question: " ++ m)%string p1, w')
      end
  end.

End Scripts.

End Page.

(** ** The routes as the pages reach them

    A request that arrives and whose reply comes back: the world is the
    server's globals together with the calls made to the model API so far. *)

Module Route.

Definition multi_upload (PDFParser : Extractor) (files : list File)
    (w : Multi.state * list ApiCall) : (Reply + string) * (Multi.state * list ApiCall) :=
  (inl (fst (Multi.upload PDFParser files (fst w))),
   (snd (Multi.upload PDFParser files (fst w)), snd w)).

Definition multi_ask (post : Provider) (question : string)
    (w : Multi.state * list ApiCall) : (Reply + string) * (Multi.state * list ApiCall) :=
  (inl (Multi.response (Multi.ask post question (fst w))),
   (Multi.after (Multi.ask post question (fst w)),
    snd w ++ Multi.calls (Multi.ask post question (fst w)))).

(** The body holds one file part, which [request.file()] returns. *)
Definition single_upload (PDFParser : Extractor) (file : File)
    (w : Single.state * list ApiCall) : (Reply + string) * (Single.state * list ApiCall) :=
  (inl (fst (Single.upload PDFParser (buffer file) (fst w))),
   (snd (Single.upload PDFParser (buffer file) (fst w)), snd w)).

Definition single_ask (post : Provider) (question : string)
    (w : Single.state * list ApiCall) : (Reply + string) * (Single.state * list ApiCall) :=
  (inl (Single.response (Single.ask post question (fst w))),
   (Single.after (Single.ask post question (fst w)),
    snd w ++ Single.calls (Single.ask post question (fst w)))).

End Route.

(** ** Sample collaborators and sessions, for the concrete instances *)

Module Sample.

(** An extractor that accepts the buffers starting with the four bytes of
    [%PDF] and returns the bytes after them as text. *)
Definition extractor : Extractor :=
  fun buf =>
    match buf with
    | Byte.x25 :: Byte.x50 :: Byte.x44 :: Byte.x46 :: body => inl (string_of_list_byte body)
    | _ => inr "Invalid PDF structure"
    end.

Definition pdf (text : string) : list Byte.byte :=
  Byte.x25 :: Byte.x50 :: Byte.x44 :: Byte.x46 :: list_byte_of_string text.

Definition corrupted : list Byte.byte := [Byte.x00; Byte.x01].

Definition answers (text : string) : Provider := fun _ _ => inl text.
Definition refuses (detail : string) : Provider := fun _ _ => inr detail.

Definition revenue : string := "Revenue was $5M in 2023.".

(** The multi-document session after [report.pdf] was uploaded. *)
Definition multi_ready : Multi.state :=
  {| Multi.pdfContexts := [("report.pdf", revenue)];
     Multi.systemPrompt := Multi.build_prompt [("report.pdf", revenue)];
     Multi.conversationHistory := [] |}.

(** The single-document session after the same upload. *)
Definition single_ready : Single.state :=
  {| Single.pdfContext := revenue;
     Single.systemPrompt := Single.build_prompt revenue;
     Single.conversationHistory := [] |}.

(** The single-document session after one answered question. *)
Definition single_talking : Single.state :=
  {| Single.pdfContext := revenue;
     Single.systemPrompt := Single.build_prompt revenue;
     Single.conversationHistory :=
       [user_turn "What was the revenue?"; assistant_turn "$5M"] |}.

(** The multi-document session after one answered question. *)
Definition multi_talking : Multi.state :=
  {| Multi.pdfContexts := [("report.pdf", revenue)];
     Multi.systemPrompt := Multi.build_prompt [("report.pdf", revenue)];
     Multi.conversationHistory :=
       [user_turn "What was the revenue?"; assistant_turn "$5M"] |}.

Definition report : File := {| filename := "report.pdf"; buffer := pdf revenue |}.
Definition notes : File := {| filename := "notes.pdf"; buffer := pdf "Costs were $3M." |}.
Definition broken : File := {| filename := "broken.pdf"; buffer := corrupted |}.

End Sample.

(** Sample pages and chosen files. *)
Module Visit.

(** The page with [input] typed in the question box. *)
Definition typed (input : string) : Page.state :=
  {| Page.uploadedFiles := []; Page.fileList := []; Page.questionInput := input;
     Page.chat := []; Page.alerts := [] |}.

Definition report : Page.BrowserFile :=
  {| Page.name := "report.pdf"; Page.size := 28; Page.data := Sample.pdf Sample.revenue |}.

Definition broken : Page.BrowserFile :=
  {| Page.name := "broken.pdf"; Page.size := 2; Page.data := Sample.corrupted |}.

(** A file over the limit; only its name and size are read. *)
Definition scan : Page.BrowserFile :=
  {| Page.name := "scan.pdf"; Page.size := 20000000; Page.data := [] |}.

(** A PDF that holds no text. *)
Definition blank : list Byte.byte := Sample.pdf "".

(** A PDF named like the prototype accessor. *)
Definition proto : File := {| filename := "__proto__"; buffer := Sample.pdf Sample.revenue |}.

(** The report again, with another text. *)
Definition report_revised : File :=
  {| filename := "report.pdf"; buffer := Sample.pdf "Revenue was $6M in 2024." |}.

End Visit.

(** * Properties *)

(** ** Strings and objects *)

Lemma not_false (s : string) : s <> "" -> JS.not s = false.
Proof. intro H. unfold JS.not. now apply String.eqb_neq. Qed.

Lemma not_true (s : string) : JS.not s = true <-> s = "".
Proof. unfold JS.not. apply String.eqb_eq. Qed.

Lemma insert_index_length n p l : length (JS.insert_index n p l) = S (length l).
Proof.
  induction l as [|[m q] l IH]; simpl; [reflexivity|].
  destruct (n <=? m)%N; simpl; [reflexivity | now rewrite IH].
Qed.

Lemma own_properties_length (o : JS.object) : length (JS.own_properties o) = length o.
Proof.
  unfold JS.own_properties. rewrite length_app, length_map.
  induction o as [|p o IH]; simpl; [reflexivity|].
  destruct (JS.array_index (fst p)); simpl.
  - rewrite insert_index_length. simpl. now rewrite IH.
  - rewrite Nat.add_succ_r. now rewrite IH.
Qed.

Lemma keys_length (o : JS.object) : length (JS.keys o) = length o.
Proof. unfold JS.keys. rewrite length_map. apply own_properties_length. Qed.

Lemma no_keys_iff (o : JS.object) : (length (JS.keys o) =? 0)%nat = true <-> o = [].
Proof.
  rewrite keys_length, Nat.eqb_eq. destruct o; simpl; split; congruence.
Qed.

Lemma some_keys (o : JS.object) : o <> [] -> (length (JS.keys o) =? 0)%nat = false.
Proof.
  intro H. destruct (length (JS.keys o) =? 0)%nat eqn:E; [|reflexivity].
  apply no_keys_iff in E. contradiction.
Qed.

Lemma push_twice {A} (h : list A) (x y : A) : (h ++ [x]) ++ [y] = h ++ [x; y].
Proof. now rewrite <- app_assoc. Qed.

(** ** The ask handlers, case by case *)

Lemma starts_with_user_app (e1 e2 : list Turn) :
  starts_with_user e1 -> starts_with_user e2 -> starts_with_user (e1 ++ e2).
Proof. destruct e1; simpl; auto. Qed.

Module MultiAsk.
Import Multi.

Lemma multi_no_question post s :
  ask post "" s = {| response := failure "No question provided."; after := s; calls := [] |}.
Proof. reflexivity. Qed.

Lemma multi_no_document post question s :
  question <> "" -> pdfContexts s = [] ->
  ask post question s =
    {| response := failure "Please upload at least one PDF first.";
       after := s; calls := [] |}.
Proof.
  intros Hq Hs. unfold ask. rewrite (not_false _ Hq), Hs. reflexivity.
Qed.

Lemma multi_answered post question s text :
  question <> "" -> pdfContexts s <> [] ->
  post (conversationHistory s ++ [user_turn question]) (systemPrompt s) = inl text ->
  ask post question s =
    {| response := success_answer text;
       after := {| pdfContexts := pdfContexts s;
                   systemPrompt := systemPrompt s;
                   conversationHistory :=
                     conversationHistory s ++ [user_turn question; assistant_turn text] |};
       calls := [{| messages := conversationHistory s ++ [user_turn question];
                    system := systemPrompt s |}] |}.
Proof.
  intros Hq Hs Hp. unfold ask, callClaudeAPI.
  rewrite (not_false _ Hq), (some_keys _ Hs), Hp, push_twice. reflexivity.
Qed.

Lemma multi_refused post question s detail :
  question <> "" -> pdfContexts s <> [] ->
  post (conversationHistory s ++ [user_turn question]) (systemPrompt s) = inr detail ->
  ask post question s =
    {| response := failure ("Failed to get response from Claude API: " ++ detail)%string;
       after := {| pdfContexts := pdfContexts s;
                   systemPrompt := systemPrompt s;
                   conversationHistory := conversationHistory s ++ [user_turn question] |};
       calls := [{| messages := conversationHistory s ++ [user_turn question];
                    system := systemPrompt s |}] |}.
Proof.
  intros Hq Hs Hp. unfold ask, callClaudeAPI.
  rewrite (not_false _ Hq), (some_keys _ Hs), Hp. reflexivity.
Qed.

(** Whatever the request, the handler leaves in one of four ways. *)
Lemma multi_cases post question s :
  (question = "" /\ after (ask post question s) = s /\ calls (ask post question s) = [])
  \/ (pdfContexts s = [] /\ after (ask post question s) = s /\ calls (ask post question s) = [])
  \/ (exists text,
        after (ask post question s) =
          {| pdfContexts := pdfContexts s; systemPrompt := systemPrompt s;
             conversationHistory :=
               conversationHistory s ++ [user_turn question; assistant_turn text] |})
  \/ after (ask post question s) =
       {| pdfContexts := pdfContexts s; systemPrompt := systemPrompt s;
          conversationHistory := conversationHistory s ++ [user_turn question] |}.
Proof.
  destruct (string_dec question "") as [->|Hq]; [left; now rewrite multi_no_question|].
  destruct (pdfContexts s) as [|d ctx] eqn:Hs.
  - right; left. rewrite (multi_no_document _ _ _ Hq Hs). now rewrite <- Hs.
  - assert (Hne : pdfContexts s <> []) by (rewrite Hs; discriminate).
    rewrite <- Hs.
    destruct (post (conversationHistory s ++ [user_turn question]) (systemPrompt s))
      as [text|detail] eqn:Hp.
    + right; right; left. exists text. now rewrite (multi_answered _ _ _ _ Hq Hne Hp).
    + right; right; right. now rewrite (multi_refused _ _ _ _ Hq Hne Hp).
Qed.

Lemma multi_frame post question s :
  pdfContexts (after (ask post question s)) = pdfContexts s
  /\ systemPrompt (after (ask post question s)) = systemPrompt s.
Proof.
  destruct (multi_cases post question s)
    as [(_ & -> & _)|[(_ & -> & _)|[(text & ->)| ->]]]; now split.
Qed.

Lemma multi_extends post question s :
  exists ext,
    conversationHistory (after (ask post question s)) = conversationHistory s ++ ext
    /\ starts_with_user ext.
Proof.
  destruct (multi_cases post question s)
    as [(_ & -> & _)|[(_ & -> & _)|[(text & ->)| ->]]]; simpl.
  - exists []. now rewrite app_nil_r.
  - exists []. now rewrite app_nil_r.
  - now exists [user_turn question; assistant_turn text].
  - now exists [user_turn question].
Qed.

Lemma multi_ask_all (l : list (Provider * string)) :
  forall s,
    pdfContexts (ask_all l s) = pdfContexts s
    /\ systemPrompt (ask_all l s) = systemPrompt s
    /\ exists ext,
         conversationHistory (ask_all l s) = conversationHistory s ++ ext
         /\ starts_with_user ext.
Proof.
  induction l as [|[post question] l IH]; intro s.
  - repeat split. exists []. now rewrite app_nil_r.
  - change (ask_all ((post, question) :: l) s)
      with (ask_all l (after (ask post question s))).
    destruct (IH (after (ask post question s))) as (H1 & H2 & ext2 & H3 & H4).
    destruct (multi_frame post question s) as [F1 F2].
    destruct (multi_extends post question s) as (ext1 & E1 & E2).
    rewrite H1, H2, H3, F1, F2, E1. repeat split.
    exists (ext1 ++ ext2). rewrite app_assoc. split; [reflexivity|].
    now apply starts_with_user_app.
Qed.

End MultiAsk.

Module SingleAsk.
Import Single.

Lemma single_no_question post s :
  ask post "" s = {| response := failure "No question provided."; after := s; calls := [] |}.
Proof. reflexivity. Qed.

Lemma single_no_document post question s :
  question <> "" -> pdfContext s = "" ->
  ask post question s =
    {| response := failure "Please upload a PDF first."; after := s; calls := [] |}.
Proof.
  intros Hq Hs. unfold ask. rewrite (not_false _ Hq), Hs. reflexivity.
Qed.

Lemma single_answered post question s text :
  question <> "" -> pdfContext s <> "" ->
  post (conversationHistory s ++ [user_turn question]) (systemPrompt s) = inl text ->
  ask post question s =
    {| response := success_answer text;
       after := {| pdfContext := pdfContext s;
                   systemPrompt := systemPrompt s;
                   conversationHistory :=
                     conversationHistory s ++ [user_turn question; assistant_turn text] |};
       calls := [{| messages := conversationHistory s ++ [user_turn question];
                    system := systemPrompt s |}] |}.
Proof.
  intros Hq Hs Hp. unfold ask, callClaudeAPI.
  rewrite (not_false _ Hq), (not_false _ Hs), Hp, push_twice. reflexivity.
Qed.

Lemma single_refused post question s detail :
  question <> "" -> pdfContext s <> "" ->
  post (conversationHistory s ++ [user_turn question]) (systemPrompt s) = inr detail ->
  ask post question s =
    {| response := failure ("Failed to get response from Claude API: " ++ detail)%string;
       after := {| pdfContext := pdfContext s;
                   systemPrompt := systemPrompt s;
                   conversationHistory := conversationHistory s ++ [user_turn question] |};
       calls := [{| messages := conversationHistory s ++ [user_turn question];
                    system := systemPrompt s |}] |}.
Proof.
  intros Hq Hs Hp. unfold ask, callClaudeAPI.
  rewrite (not_false _ Hq), (not_false _ Hs), Hp. reflexivity.
Qed.

Lemma single_cases post question s :
  (question = "" /\ after (ask post question s) = s /\ calls (ask post question s) = [])
  \/ (pdfContext s = "" /\ after (ask post question s) = s /\ calls (ask post question s) = [])
  \/ (exists text,
        after (ask post question s) =
          {| pdfContext := pdfContext s; systemPrompt := systemPrompt s;
             conversationHistory :=
               conversationHistory s ++ [user_turn question; assistant_turn text] |})
  \/ after (ask post question s) =
       {| pdfContext := pdfContext s; systemPrompt := systemPrompt s;
          conversationHistory := conversationHistory s ++ [user_turn question] |}.
Proof.
  destruct (string_dec question "") as [->|Hq]; [left; now rewrite single_no_question|].
  destruct (string_dec (pdfContext s) "") as [Hs|Hs].
  - right; left. now rewrite (single_no_document _ _ _ Hq Hs).
  - destruct (post (conversationHistory s ++ [user_turn question]) (systemPrompt s))
      as [text|detail] eqn:Hp.
    + right; right; left. exists text. now rewrite (single_answered _ _ _ _ Hq Hs Hp).
    + right; right; right. now rewrite (single_refused _ _ _ _ Hq Hs Hp).
Qed.

Lemma single_frame post question s :
  pdfContext (after (ask post question s)) = pdfContext s
  /\ systemPrompt (after (ask post question s)) = systemPrompt s.
Proof.
  destruct (single_cases post question s)
    as [(_ & -> & _)|[(_ & -> & _)|[(text & ->)| ->]]]; now split.
Qed.

Lemma single_extends post question s :
  exists ext,
    conversationHistory (after (ask post question s)) = conversationHistory s ++ ext
    /\ starts_with_user ext.
Proof.
  destruct (single_cases post question s)
    as [(_ & -> & _)|[(_ & -> & _)|[(text & ->)| ->]]]; simpl.
  - exists []. now rewrite app_nil_r.
  - exists []. now rewrite app_nil_r.
  - now exists [user_turn question; assistant_turn text].
  - now exists [user_turn question].
Qed.

Lemma single_ask_all (l : list (Provider * string)) :
  forall s,
    pdfContext (ask_all l s) = pdfContext s
    /\ systemPrompt (ask_all l s) = systemPrompt s
    /\ exists ext,
         conversationHistory (ask_all l s) = conversationHistory s ++ ext
         /\ starts_with_user ext.
Proof.
  induction l as [|[post question] l IH]; intro s.
  - repeat split. exists []. now rewrite app_nil_r.
  - change (ask_all ((post, question) :: l) s)
      with (ask_all l (after (ask post question s))).
    destruct (IH (after (ask post question s))) as (H1 & H2 & ext2 & H3 & H4).
    destruct (single_frame post question s) as [F1 F2].
    destruct (single_extends post question s) as (ext1 & E1 & E2).
    rewrite H1, H2, H3, F1, F2, E1. repeat split.
    exists (ext1 ++ ext2). rewrite app_assoc. split; [reflexivity|].
    now apply starts_with_user_app.
Qed.

End SingleAsk.


(** ** The upload handlers *)

Section Uploads.
Variable PDFParser : Extractor.

Lemma extracted_app (xs ys : list File) :
  Multi.extracted PDFParser (xs ++ ys)
  = Multi.extracted PDFParser xs ++ Multi.extracted PDFParser ys.
Proof.
  induction xs as [|f xs IH]; simpl; [reflexivity|].
  destruct (PDFParser (buffer f)); simpl; now rewrite IH.
Qed.

Lemma extracted_skip (f : File) (rest : list File) (m : string) :
  PDFParser (buffer f) = inr m ->
  Multi.extracted PDFParser (f :: rest) = Multi.extracted PDFParser rest.
Proof. intro H. simpl. now rewrite H. Qed.

Lemma store_app (ctx : JS.object) (xs ys : list (string * string)) :
  Multi.store ctx (xs ++ ys) = Multi.store (Multi.store ctx xs) ys.
Proof. unfold Multi.store. apply fold_left_app. Qed.

(** The loop stores the extracted pairs, in order, and lists their names. *)
Lemma upload_loop_extracted (files : list File) :
  forall ctx names,
    Multi.upload_loop PDFParser files ctx names
    = (Multi.store ctx (Multi.extracted PDFParser files),
       names ++ map fst (Multi.extracted PDFParser files)).
Proof.
  induction files as [|f files IH]; intros ctx names; simpl.
  - now rewrite app_nil_r.
  - destruct (PDFParser (buffer f)) as [text|m]; rewrite IH; simpl.
    + now rewrite <- app_assoc.
    + reflexivity.
Qed.

Lemma multi_upload_eq (files : list File) (s : Multi.state) :
  Multi.upload PDFParser files s
  = (success_message
       ("PDFs uploaded and processed successfully: "
          ++ JS.join ", " (map fst (Multi.extracted PDFParser files)))%string,
     {| Multi.pdfContexts := Multi.store (Multi.pdfContexts s) (Multi.extracted PDFParser files);
        Multi.systemPrompt :=
          Multi.build_prompt
            (Multi.store (Multi.pdfContexts s) (Multi.extracted PDFParser files));
        Multi.conversationHistory := [] |}).
Proof.
  unfold Multi.upload. now rewrite upload_loop_extracted.
Qed.

Lemma multi_handle_store (s : Multi.state) (r : Multi.request) :
  Multi.pdfContexts (Multi.handle PDFParser s r)
  = Multi.store (Multi.pdfContexts s) (Multi.extracted_of PDFParser r).
Proof.
  destruct r as [files|post question]; simpl.
  - now rewrite multi_upload_eq.
  - apply MultiAsk.multi_frame.
Qed.

Lemma multi_run_snoc (rs : list Multi.request) (r : Multi.request) (s : Multi.state) :
  Multi.run PDFParser (rs ++ [r]) s = Multi.handle PDFParser (Multi.run PDFParser rs s) r.
Proof. unfold Multi.run. now rewrite fold_left_app. Qed.

Lemma single_run_snoc (rs : list Single.request) (r : Single.request) (s : Single.state) :
  Single.run PDFParser (rs ++ [r]) s = Single.handle PDFParser (Single.run PDFParser rs s) r.
Proof. unfold Single.run. now rewrite fold_left_app. Qed.

(** Over a whole session the object holds the pairs extracted so far. *)
Lemma multi_run_store (rs : list Multi.request) :
  forall s,
    Multi.pdfContexts (Multi.run PDFParser rs s)
    = Multi.store (Multi.pdfContexts s) (flat_map (Multi.extracted_of PDFParser) rs).
Proof.
  induction rs as [|r rs IH]; intro s; [reflexivity|].
  change (Multi.run PDFParser (r :: rs) s)
    with (Multi.run PDFParser rs (Multi.handle PDFParser s r)).
  rewrite IH, multi_handle_store. simpl. now rewrite store_app.
Qed.

Lemma last_extracted_found (rs : list Single.request) :
  forall found,
    Single.last_extracted PDFParser rs found
    = match Single.last_extracted PDFParser rs None with
      | Some text => Some text
      | None => found
      end.
Proof.
  induction rs as [|[buf|post question] rs IH]; intro found; simpl.
  - reflexivity.
  - destruct (PDFParser buf) as [text|m]; [|apply IH].
    rewrite (IH (Some text)).
    now destruct (Single.last_extracted PDFParser rs None).
  - apply IH.
Qed.

(** Over a whole session the single-document globals are those of the last
    upload that was extracted. *)
Lemma single_run_last (rs : list Single.request) :
  forall s,
    Single.pdfContext (Single.run PDFParser rs s)
    = match Single.last_extracted PDFParser rs None with
      | Some text => text
      | None => Single.pdfContext s
      end
    /\ Single.systemPrompt (Single.run PDFParser rs s)
       = match Single.last_extracted PDFParser rs None with
         | Some text => Single.build_prompt text
         | None => Single.systemPrompt s
         end.
Proof.
  induction rs as [|r rs IH]; intro s; [now split|].
  change (Single.run PDFParser (r :: rs) s)
    with (Single.run PDFParser rs (Single.handle PDFParser s r)).
  destruct (IH (Single.handle PDFParser s r)) as [H1 H2]. rewrite H1, H2. clear IH H1 H2.
  destruct r as [buf|post question]; simpl.
  - unfold Single.upload. destruct (PDFParser buf) as [text|m]; simpl.
    + rewrite (last_extracted_found rs (Some text)).
      now destruct (Single.last_extracted PDFParser rs None).
    + now split.
  - destruct (SingleAsk.single_frame post question s) as [-> ->]. now split.
Qed.

End Uploads.


(** ** The shape of the transcript *)

Lemma shape_ok_push_user (h : list Turn) :
  forall prev question, shape_ok prev (h ++ [user_turn question]) = shape_ok prev h.
Proof.
  induction h as [|t h IH]; intros prev question; simpl; [reflexivity|].
  destruct (role t); now rewrite IH.
Qed.

Lemma shape_ok_push_exchange (h : list Turn) :
  forall prev question text,
    shape_ok prev (h ++ [user_turn question; assistant_turn text]) = shape_ok prev h.
Proof.
  induction h as [|t h IH]; intros prev question text; simpl; [reflexivity|].
  destruct (role t); now rewrite IH.
Qed.

Lemma shape_ok_sound (h : list Turn) :
  forall prev i t,
    shape_ok prev h = true -> nth_error h i = Some t -> role t = assistant ->
    (i = 0 /\ prev = true)
    \/ exists j u, i = S j /\ nth_error h j = Some u /\ role u = user.
Proof.
  induction h as [|t0 h IH]; intros prev i t Hok Hi Ht.
  - destruct i; discriminate.
  - destruct i as [|i]; simpl in Hi, Hok.
    + injection Hi as ->. rewrite Ht in Hok. left. split; [reflexivity|].
      now apply andb_true_iff in Hok.
    + right. destruct (role t0) eqn:R0.
      * destruct (IH true i t Hok Hi Ht) as [[-> _]|(j & u & -> & Hj & Hu)].
        -- exists 0, t0. now repeat split.
        -- exists (S j), u. now repeat split.
      * apply andb_true_iff in Hok. destruct Hok as [_ Hok].
        destruct (IH false i t Hok Hi Ht) as [[_ F]|(j & u & -> & Hj & Hu)];
          [discriminate|].
        exists (S j), u. now repeat split.
Qed.

Lemma shape_ok_shapes (h : list Turn) :
  shape_ok false h = true -> starts_with_user h /\ assistant_follows_user h.
Proof.
  intro Hok. split.
  - destruct h as [|t h]; simpl in *; [exact I|].
    destruct (role t); [reflexivity | discriminate].
  - intros i t Hi Ht.
    destruct (shape_ok_sound h false i t Hok Hi Ht) as [[_ F]|H]; [discriminate | exact H].
Qed.

Section Sessions.
Variable PDFParser : Extractor.

Lemma multi_handle_shape (s : Multi.state) (r : Multi.request) :
  shape_ok false (Multi.conversationHistory s) = true ->
  shape_ok false (Multi.conversationHistory (Multi.handle PDFParser s r)) = true.
Proof.
  intro Hok. destruct r as [files|post question]; simpl.
  - now rewrite multi_upload_eq.
  - destruct (MultiAsk.multi_cases post question s)
      as [(_ & -> & _)|[(_ & -> & _)|[(text & ->)| ->]]]; simpl; trivial.
    + now rewrite shape_ok_push_exchange.
    + now rewrite shape_ok_push_user.
Qed.

Lemma single_handle_shape (s : Single.state) (r : Single.request) :
  shape_ok false (Single.conversationHistory s) = true ->
  shape_ok false (Single.conversationHistory (Single.handle PDFParser s r)) = true.
Proof.
  intro Hok. destruct r as [buf|post question]; simpl.
  - unfold Single.upload. now destruct (PDFParser buf).
  - destruct (SingleAsk.single_cases post question s)
      as [(_ & -> & _)|[(_ & -> & _)|[(text & ->)| ->]]]; simpl; trivial.
    + now rewrite shape_ok_push_exchange.
    + now rewrite shape_ok_push_user.
Qed.

Lemma multi_run_shape (rs : list Multi.request) :
  forall s,
    shape_ok false (Multi.conversationHistory s) = true ->
    shape_ok false (Multi.conversationHistory (Multi.run PDFParser rs s)) = true.
Proof.
  induction rs as [|r rs IH]; intros s Hok; [exact Hok|].
  apply (IH (Multi.handle PDFParser s r)). now apply multi_handle_shape.
Qed.

Lemma single_run_shape (rs : list Single.request) :
  forall s,
    shape_ok false (Single.conversationHistory s) = true ->
    shape_ok false (Single.conversationHistory (Single.run PDFParser rs s)) = true.
Proof.
  induction rs as [|r rs IH]; intros s Hok; [exact Hok|].
  apply (IH (Single.handle PDFParser s r)). now apply single_handle_shape.
Qed.

End Sessions.


(** ** The page script *)

(** The page posts nothing exactly when the input is empty after trimming. *)
Fact page_script_trims (input : string) :
  askQuestion_posts input = None <-> JS.trim input = "".
Proof.
  unfold askQuestion_posts. destruct (JS.not (JS.trim input)) eqn:E.
  - apply not_true in E. now split.
  - split; [discriminate|]. intro H. apply not_true in H. congruence.
Qed.


(** * The claims *)

(** C1.  When the model API call of an ask fails, both servers reply with a
    failure carrying the wrapped error text and keep the user turn pushed
    before the call: the transcript is the old one followed by that single
    user turn, with no assistant turn.  After any further asks, an ask that
    is answered posts a transcript in which that turn still stands, and the
    turn right after it is a user turn, not an answer to it. *)
Theorem ask_failure_keeps_user_turn :
  (forall post question s detail,
     question <> "" -> Multi.pdfContexts s <> [] ->
     post (Multi.conversationHistory s ++ [user_turn question]) (Multi.systemPrompt s)
       = inr detail ->
     Multi.response (Multi.ask post question s)
       = failure ("Failed to get response from Claude API: " ++ detail)%string
     /\ Multi.conversationHistory (Multi.after (Multi.ask post question s))
        = Multi.conversationHistory s ++ [user_turn question]
     /\ forall later post' question' text,
          question' <> "" ->
          post' (Multi.conversationHistory
                   (Multi.ask_all later (Multi.after (Multi.ask post question s)))
                   ++ [user_turn question'])
                (Multi.systemPrompt s) = inl text ->
          Multi.response
            (Multi.ask post' question'
               (Multi.ask_all later (Multi.after (Multi.ask post question s))))
            = success_answer text
          /\ exists between,
               Multi.calls
                 (Multi.ask post' question'
                    (Multi.ask_all later (Multi.after (Multi.ask post question s))))
               = [{| messages :=
                       Multi.conversationHistory s
                         ++ user_turn question :: between ++ [user_turn question'];
                     system := Multi.systemPrompt s |}]
               /\ starts_with_user (between ++ [user_turn question']))
  /\
  (forall post question s detail,
     question <> "" -> Single.pdfContext s <> "" ->
     post (Single.conversationHistory s ++ [user_turn question]) (Single.systemPrompt s)
       = inr detail ->
     Single.response (Single.ask post question s)
       = failure ("Failed to get response from Claude API: " ++ detail)%string
     /\ Single.conversationHistory (Single.after (Single.ask post question s))
        = Single.conversationHistory s ++ [user_turn question]
     /\ forall later post' question' text,
          question' <> "" ->
          post' (Single.conversationHistory
                   (Single.ask_all later (Single.after (Single.ask post question s)))
                   ++ [user_turn question'])
                (Single.systemPrompt s) = inl text ->
          Single.response
            (Single.ask post' question'
               (Single.ask_all later (Single.after (Single.ask post question s))))
            = success_answer text
          /\ exists between,
               Single.calls
                 (Single.ask post' question'
                    (Single.ask_all later (Single.after (Single.ask post question s))))
               = [{| messages :=
                       Single.conversationHistory s
                         ++ user_turn question :: between ++ [user_turn question'];
                     system := Single.systemPrompt s |}]
               /\ starts_with_user (between ++ [user_turn question'])).
Proof.
  split; intros post question s detail Hq Hs Hp.
  - rewrite (MultiAsk.multi_refused _ _ _ _ Hq Hs Hp). simpl.
    split; [reflexivity|]. split; [reflexivity|].
    intros later post' question' text Hq' Hp'.
    match type of Hp' with
    | context [Multi.ask_all later ?s1] =>
        destruct (MultiAsk.multi_ask_all later s1) as (A1 & A2 & between & A3 & A4);
        simpl in A1, A2, A3;
        set (s2 := Multi.ask_all later s1) in *
    end.
    assert (Hs' : Multi.pdfContexts s2 <> []) by (rewrite A1; exact Hs).
    assert (Hp2 : post' (Multi.conversationHistory s2 ++ [user_turn question'])
                        (Multi.systemPrompt s2) = inl text)
      by (rewrite A2; exact Hp').
    rewrite (MultiAsk.multi_answered post' question' s2 text Hq' Hs' Hp2).
    simpl. rewrite A2, A3.
    split; [reflexivity|]. exists between. split.
    + now rewrite <- !app_assoc.
    + apply starts_with_user_app; [exact A4 | reflexivity].
  - rewrite (SingleAsk.single_refused _ _ _ _ Hq Hs Hp). simpl.
    split; [reflexivity|]. split; [reflexivity|].
    intros later post' question' text Hq' Hp'.
    match type of Hp' with
    | context [Single.ask_all later ?s1] =>
        destruct (SingleAsk.single_ask_all later s1) as (A1 & A2 & between & A3 & A4);
        simpl in A1, A2, A3;
        set (s2 := Single.ask_all later s1) in *
    end.
    assert (Hs' : Single.pdfContext s2 <> "") by (rewrite A1; exact Hs).
    assert (Hp2 : post' (Single.conversationHistory s2 ++ [user_turn question'])
                        (Single.systemPrompt s2) = inl text)
      by (rewrite A2; exact Hp').
    rewrite (SingleAsk.single_answered post' question' s2 text Hq' Hs' Hp2).
    simpl. rewrite A2, A3.
    split; [reflexivity|]. exists between. split.
    + now rewrite <- !app_assoc.
    + apply starts_with_user_app; [exact A4 | reflexivity].
Qed.

(** C2, as the code has it.  The multi-document upload always leaves the
    transcript empty, also when no file of the batch is extracted and the
    stored documents are unchanged.  The single-document upload empties the
    transcript when the extraction succeeds and leaves it as it was when the
    extraction fails. *)
Theorem upload_resets_transcript :
  (forall PDFParser files s,
     Multi.conversationHistory (snd (Multi.upload PDFParser files s)) = [])
  /\ (forall PDFParser files s,
        Multi.extracted PDFParser files = [] ->
        Multi.pdfContexts (snd (Multi.upload PDFParser files s)) = Multi.pdfContexts s
        /\ Multi.conversationHistory (snd (Multi.upload PDFParser files s)) = [])
  /\ (forall PDFParser buf s,
        Single.conversationHistory (snd (Single.upload PDFParser buf s))
        = match PDFParser buf with
          | inl _ => []
          | inr _ => Single.conversationHistory s
          end).
Proof.
  split; [|split].
  - intros. now rewrite multi_upload_eq.
  - intros PDFParser files s H. rewrite multi_upload_eq. simpl. now rewrite H.
  - intros. unfold Single.upload. now destruct (PDFParser buf).
Qed.

(** C3, as the code has it.  Both servers reject the empty question with
    [No question provided.], change none of the globals and make no call to
    the model API.  The handlers do not trim, the test is [!question]: no
    other question, the white-space ones included, gets that reply. *)
Theorem empty_question_rejected :
  (forall post s,
     Multi.ask post "" s
     = {| Multi.response := failure "No question provided.";
          Multi.after := s; Multi.calls := [] |})
  /\ (forall post s,
        Single.ask post "" s
        = {| Single.response := failure "No question provided.";
             Single.after := s; Single.calls := [] |})
  /\ (forall post question s,
        question <> "" ->
        Multi.response (Multi.ask post question s) <> failure "No question provided.")
  /\ (forall post question s,
        question <> "" ->
        Single.response (Single.ask post question s) <> failure "No question provided.").
Proof.
  split; [reflexivity|]. split; [reflexivity|].
  split; intros post question s Hq.
  - unfold Multi.ask, callClaudeAPI. rewrite (not_false _ Hq).
    destruct (length (JS.keys (Multi.pdfContexts s)) =? 0)%nat; [discriminate|].
    destruct (post _ _); simpl; discriminate.
  - unfold Single.ask, callClaudeAPI. rewrite (not_false _ Hq).
    destruct (JS.not (Single.pdfContext s)); [discriminate|].
    destruct (post _ _); simpl; discriminate.
Qed.

(** C4, as the code has it.  After every multi-document upload the prompt is
    the fixed preamble followed by the values of [pdfContexts], in
    enumeration order, joined by one space; over a session that starts from
    the initial globals it is that function of the pairs extracted by the
    uploads so far.  After a single-document upload whose extraction
    succeeds the prompt is the preamble followed by the stored text; a
    failed extraction leaves text and prompt as they were, and over a session
    the prompt is the preamble followed by the last extracted text, or the
    empty string when no upload was extracted yet. *)
Theorem prompt_follows_documents :
  (forall PDFParser files s,
     Multi.systemPrompt (snd (Multi.upload PDFParser files s))
     = ("You are an assistant that answers questions based on the following PDF contents: "
          ++ JS.join " " (JS.values (Multi.pdfContexts (snd (Multi.upload PDFParser files s)))))%string)
  /\ (forall PDFParser rs files,
        Multi.systemPrompt (Multi.run PDFParser (rs ++ [Multi.Upload files]) Multi.initial)
        = Multi.build_prompt
            (Multi.store [] (flat_map (Multi.extracted_of PDFParser)
                                      (rs ++ [Multi.Upload files]))))
  /\ (forall PDFParser buf s,
        match PDFParser buf with
        | inl text =>
            Single.pdfContext (snd (Single.upload PDFParser buf s)) = text
            /\ Single.systemPrompt (snd (Single.upload PDFParser buf s))
               = ("You are an assistant that answers questions based on the following PDF content: "
                    ++ text)%string
        | inr _ => snd (Single.upload PDFParser buf s) = s
        end)
  /\ (forall PDFParser rs,
        Single.systemPrompt (Single.run PDFParser rs Single.initial)
        = match Single.last_extracted PDFParser rs None with
          | Some text => Single.build_prompt text
          | None => ""
          end).
Proof.
  split; [|split; [|split]].
  - intros. now rewrite multi_upload_eq.
  - intros. rewrite multi_run_snoc. simpl. rewrite multi_upload_eq. simpl.
    rewrite multi_run_store. simpl. rewrite flat_map_app, store_app. simpl.
    now rewrite app_nil_r.
  - intros. unfold Single.upload. now destruct (PDFParser buf).
  - intros. now destruct (single_run_last PDFParser rs Single.initial) as [_ ->].
Qed.

(** C5.  An ask with a non-empty question, at least one stored document and
    a model API call that returns [text] replies [{ success: true, answer:
    text }], appends exactly the user turn with the question and then the
    assistant turn with [text], and makes one call, whose messages are the
    whole transcript ending with the user turn just pushed. *)
Theorem ask_success_appends_exchange :
  (forall post question s text,
     question <> "" -> Multi.pdfContexts s <> [] ->
     post (Multi.conversationHistory s ++ [user_turn question]) (Multi.systemPrompt s)
       = inl text ->
     Multi.response (Multi.ask post question s) = success_answer text
     /\ Multi.conversationHistory (Multi.after (Multi.ask post question s))
        = Multi.conversationHistory s ++ [user_turn question; assistant_turn text]
     /\ Multi.calls (Multi.ask post question s)
        = [{| messages := Multi.conversationHistory s ++ [user_turn question];
              system := Multi.systemPrompt s |}])
  /\
  (forall post question s text,
     question <> "" -> Single.pdfContext s <> "" ->
     post (Single.conversationHistory s ++ [user_turn question]) (Single.systemPrompt s)
       = inl text ->
     Single.response (Single.ask post question s) = success_answer text
     /\ Single.conversationHistory (Single.after (Single.ask post question s))
        = Single.conversationHistory s ++ [user_turn question; assistant_turn text]
     /\ Single.calls (Single.ask post question s)
        = [{| messages := Single.conversationHistory s ++ [user_turn question];
              system := Single.systemPrompt s |}]).
Proof.
  split; intros post question s text Hq Hs Hp.
  - rewrite (MultiAsk.multi_answered _ _ _ _ Hq Hs Hp). now repeat split.
  - rewrite (SingleAsk.single_answered _ _ _ _ Hq Hs Hp). now repeat split.
Qed.

(** C6, as the code has it.  The multi-document upload has no failure
    reply: it always answers success, listing the names of the files whose
    extraction succeeded, in order; a file whose extraction fails is passed
    over, the upload being the same as without it, and the files after it
    are still processed.  The single-document upload answers a failure,
    [Error processing PDF: ] followed by the reason, when its extraction
    fails. *)
Theorem upload_failure_is_per_file :
  (forall PDFParser files s,
     fst (Multi.upload PDFParser files s)
     = success_message
         ("PDFs uploaded and processed successfully: "
            ++ JS.join ", " (map fst (Multi.extracted PDFParser files)))%string)
  /\ (forall PDFParser files s,
        Multi.pdfContexts (snd (Multi.upload PDFParser files s))
        = Multi.store (Multi.pdfContexts s) (Multi.extracted PDFParser files))
  /\ (forall PDFParser before file rest s m,
        PDFParser (buffer file) = inr m ->
        Multi.upload PDFParser (before ++ file :: rest) s
        = Multi.upload PDFParser (before ++ rest) s)
  /\ (forall PDFParser buf s m,
        PDFParser buf = inr m ->
        fst (Single.upload PDFParser buf s) = failure ("Error processing PDF: " ++ m)%string).
Proof.
  split; [|split; [|split]].
  - intros. now rewrite multi_upload_eq.
  - intros. now rewrite multi_upload_eq.
  - intros PDFParser before file rest s m H.
    rewrite !multi_upload_eq, !extracted_app, (extracted_skip PDFParser file rest m H).
    reflexivity.
  - intros PDFParser buf s m H. unfold Single.upload. now rewrite H.
Qed.

(** C7.  An ask with a non-empty question while no document is stored is
    rejected with the server's fixed message ([Please upload at least one PDF
    first.], [Please upload a PDF first.]), leaves the globals as they were
    and makes no call to the model API.  The question is tested first: with
    an empty question and no document the reply is [No question provided.]. *)
Theorem ask_without_document_rejected :
  (forall post question s,
     question <> "" -> Multi.pdfContexts s = [] ->
     Multi.ask post question s
     = {| Multi.response := failure "Please upload at least one PDF first.";
          Multi.after := s; Multi.calls := [] |})
  /\ (forall post s,
        Multi.pdfContexts s = [] ->
        Multi.ask post "" s
        = {| Multi.response := failure "No question provided.";
             Multi.after := s; Multi.calls := [] |})
  /\ (forall post question s,
        question <> "" -> Single.pdfContext s = "" ->
        Single.ask post question s
        = {| Single.response := failure "Please upload a PDF first.";
             Single.after := s; Single.calls := [] |})
  /\ (forall post s,
        Single.pdfContext s = "" ->
        Single.ask post "" s
        = {| Single.response := failure "No question provided.";
             Single.after := s; Single.calls := [] |}).
Proof.
  split; [|split; [|split]]; intros.
  - now apply MultiAsk.multi_no_document.
  - apply MultiAsk.multi_no_question.
  - now apply SingleAsk.single_no_document.
  - apply SingleAsk.single_no_question.
Qed.

(** C8.  In the single-document server an upload whose extraction fails
    replies with a failure and leaves the stored text, the prompt and the
    transcript exactly as they were. *)
Theorem single_upload_failure_is_atomic :
  forall PDFParser buf s m,
    PDFParser buf = inr m ->
    Single.upload PDFParser buf s = (failure ("Error processing PDF: " ++ m)%string, s).
Proof.
  intros PDFParser buf s m H. unfold Single.upload. now rewrite H.
Qed.

(** C9.  Whatever its outcome, an ask leaves the stored documents and the
    prompt as they were, in both servers. *)
Theorem ask_frames_documents_and_prompt :
  (forall post question s,
     Multi.pdfContexts (Multi.after (Multi.ask post question s)) = Multi.pdfContexts s
     /\ Multi.systemPrompt (Multi.after (Multi.ask post question s)) = Multi.systemPrompt s)
  /\ (forall post question s,
        Single.pdfContext (Single.after (Single.ask post question s)) = Single.pdfContext s
        /\ Single.systemPrompt (Single.after (Single.ask post question s))
           = Single.systemPrompt s).
Proof.
  split; intros.
  - apply MultiAsk.multi_frame.
  - apply SingleAsk.single_frame.
Qed.

(** C10.  In every state reached from the initial globals by any sequence
    of uploads and asks, whatever the extractor and the API do, the
    transcript is empty or starts with a user turn, and each of its
    assistant turns comes right after a user turn. *)
Theorem transcript_shape_invariant :
  (forall PDFParser rs,
     starts_with_user (Multi.conversationHistory (Multi.run PDFParser rs Multi.initial))
     /\ assistant_follows_user
          (Multi.conversationHistory (Multi.run PDFParser rs Multi.initial)))
  /\ (forall PDFParser rs,
        starts_with_user (Single.conversationHistory (Single.run PDFParser rs Single.initial))
        /\ assistant_follows_user
             (Single.conversationHistory (Single.run PDFParser rs Single.initial))).
Proof.
  split; intros PDFParser rs; apply shape_ok_shapes.
  - now apply multi_run_shape.
  - now apply single_run_shape.
Qed.

(** * Concrete sessions *)

(** The sample sessions are states the servers reach. *)
Fact sample_sessions_reached :
  Multi.run Sample.extractor [Multi.Upload [Sample.report]] Multi.initial = Sample.multi_ready
  /\ Multi.run Sample.extractor
       [Multi.Upload [Sample.report];
        Multi.Ask (Sample.answers "$5M") "What was the revenue?"] Multi.initial
     = Sample.multi_talking
  /\ Single.run Sample.extractor [Single.Upload (Sample.pdf Sample.revenue)] Single.initial
     = Sample.single_ready
  /\ Single.run Sample.extractor
       [Single.Upload (Sample.pdf Sample.revenue);
        Single.Ask (Sample.answers "$5M") "What was the revenue?"] Single.initial
     = Sample.single_talking.
Proof. repeat split. Qed.

(** C1 at a failed call followed by an answered one, in both servers. *)
Lemma ask_failure_keeps_user_turn_witness :
  (Multi.response
     (Multi.ask (Sample.refuses "Network Error") "What was the revenue?" Sample.multi_ready)
   = failure "Failed to get response from Claude API: Network Error"
   /\ Multi.conversationHistory
        (Multi.after
           (Multi.ask (Sample.refuses "Network Error") "What was the revenue?"
                      Sample.multi_ready))
      = [user_turn "What was the revenue?"]
   /\ Multi.response
        (Multi.ask (Sample.answers "$5M") "And the costs?"
           (Multi.after
              (Multi.ask (Sample.refuses "Network Error") "What was the revenue?"
                         Sample.multi_ready)))
      = success_answer "$5M")
  /\
  (Single.response
     (Single.ask (Sample.refuses "Network Error") "What was the revenue?" Sample.single_ready)
   = failure "Failed to get response from Claude API: Network Error"
   /\ Single.conversationHistory
        (Single.after
           (Single.ask (Sample.refuses "Network Error") "What was the revenue?"
                       Sample.single_ready))
      = [user_turn "What was the revenue?"]
   /\ Single.response
        (Single.ask (Sample.answers "$5M") "And the costs?"
           (Single.after
              (Single.ask (Sample.refuses "Network Error") "What was the revenue?"
                          Sample.single_ready)))
      = success_answer "$5M").
Proof.
  destruct ask_failure_keeps_user_turn as [HM HS]. split.
  - destruct (HM (Sample.refuses "Network Error") "What was the revenue?"
                 Sample.multi_ready "Network Error") as (H1 & H2 & H3);
      [discriminate | discriminate | reflexivity |].
    split; [exact H1|]. split; [exact H2|].
    apply (H3 [] (Sample.answers "$5M") "And the costs?" "$5M");
      [discriminate | reflexivity].
  - destruct (HS (Sample.refuses "Network Error") "What was the revenue?"
                 Sample.single_ready "Network Error") as (H1 & H2 & H3);
      [discriminate | discriminate | reflexivity |].
    split; [exact H1|]. split; [exact H2|].
    apply (H3 [] (Sample.answers "$5M") "And the costs?" "$5M");
      [discriminate | reflexivity].
Defined.

(** C2 at a batch whose only file is not a PDF, after an answered question. *)
Lemma upload_resets_transcript_witness :
  Multi.extracted Sample.extractor [Sample.broken] = []
  /\ Multi.pdfContexts (snd (Multi.upload Sample.extractor [Sample.broken] Sample.multi_talking))
     = Multi.pdfContexts Sample.multi_talking
  /\ Multi.conversationHistory
       (snd (Multi.upload Sample.extractor [Sample.broken] Sample.multi_talking)) = [].
Proof.
  split; [reflexivity|].
  apply (proj1 (proj2 upload_resets_transcript) Sample.extractor [Sample.broken]
               Sample.multi_talking).
  reflexivity.
Defined.

(** Against C2 as stated: in the single-document server, an upload whose
    extraction fails after an answered question leaves the two turns in the
    transcript. *)
Lemma single_failed_upload_keeps_transcript :
  Sample.extractor Sample.corrupted = inr "Invalid PDF structure"
  /\ Single.conversationHistory
       (Single.run Sample.extractor
          [Single.Upload (Sample.pdf Sample.revenue);
           Single.Ask (Sample.answers "$5M") "What was the revenue?";
           Single.Upload Sample.corrupted] Single.initial)
     = [user_turn "What was the revenue?"; assistant_turn "$5M"]
  /\ Single.conversationHistory
       (snd (Single.upload Sample.extractor Sample.corrupted Sample.single_talking)) <> [].
Proof. split; [reflexivity|]. split; [reflexivity | discriminate]. Qed.

(** Against C3 as stated: a question of three spaces is empty after
    trimming, yet both servers push it, call the model API with it and
    answer with success. *)
Lemma whitespace_question_is_asked :
  JS.trim "   " = ""
  /\ Multi.ask (Sample.answers "$5M") "   " Sample.multi_ready
     = {| Multi.response := success_answer "$5M";
          Multi.after :=
            {| Multi.pdfContexts := Multi.pdfContexts Sample.multi_ready;
               Multi.systemPrompt := Multi.systemPrompt Sample.multi_ready;
               Multi.conversationHistory := [user_turn "   "; assistant_turn "$5M"] |};
          Multi.calls :=
            [{| messages := [user_turn "   "];
                system := Multi.systemPrompt Sample.multi_ready |}] |}
  /\ Single.ask (Sample.answers "$5M") "   " Sample.single_ready
     = {| Single.response := success_answer "$5M";
          Single.after :=
            {| Single.pdfContext := Single.pdfContext Sample.single_ready;
               Single.systemPrompt := Single.systemPrompt Sample.single_ready;
               Single.conversationHistory := [user_turn "   "; assistant_turn "$5M"] |};
          Single.calls :=
            [{| messages := [user_turn "   "];
                system := Single.systemPrompt Sample.single_ready |}] |}
  /\ Multi.response (Multi.ask (Sample.answers "$5M") "   " Sample.multi_ready)
     <> failure "No question provided.".
Proof. split; [reflexivity|]. split; [reflexivity|]. split; [reflexivity | discriminate]. Qed.

(** C3 at a question of three spaces, which is not the empty string. *)
Lemma empty_question_rejected_witness :
  Multi.response (Multi.ask (Sample.answers "$5M") "   " Sample.multi_ready)
  <> failure "No question provided."
  /\ Single.response (Single.ask (Sample.answers "$5M") "   " Sample.single_ready)
     <> failure "No question provided.".
Proof.
  destruct empty_question_rejected as (_ & _ & H3 & H4). split.
  - apply (H3 (Sample.answers "$5M") "   " Sample.multi_ready). discriminate.
  - apply (H4 (Sample.answers "$5M") "   " Sample.single_ready). discriminate.
Defined.

(** Against C4 as stated: in the single-document server, a first upload
    whose extraction fails leaves the prompt empty, which is not the preamble
    followed by the stored text. *)
Lemma single_prompt_empty_after_failed_upload :
  Single.systemPrompt (snd (Single.upload Sample.extractor Sample.corrupted Single.initial))
  = ""
  /\ Single.systemPrompt (snd (Single.upload Sample.extractor Sample.corrupted Single.initial))
     <> Single.build_prompt
          (Single.pdfContext
             (snd (Single.upload Sample.extractor Sample.corrupted Single.initial))).
Proof. split; [reflexivity | discriminate]. Qed.

(** C5 at the revenue question. *)
Lemma ask_success_appends_exchange_witness :
  (Multi.response
     (Multi.ask (Sample.answers "$5M") "What was the revenue?" Sample.multi_ready)
   = success_answer "$5M"
   /\ Multi.conversationHistory
        (Multi.after
           (Multi.ask (Sample.answers "$5M") "What was the revenue?" Sample.multi_ready))
      = [user_turn "What was the revenue?"; assistant_turn "$5M"]
   /\ Multi.calls (Multi.ask (Sample.answers "$5M") "What was the revenue?" Sample.multi_ready)
      = [{| messages := [user_turn "What was the revenue?"];
            system := Multi.systemPrompt Sample.multi_ready |}])
  /\
  (Single.response
     (Single.ask (Sample.answers "$5M") "What was the revenue?" Sample.single_ready)
   = success_answer "$5M"
   /\ Single.conversationHistory
        (Single.after
           (Single.ask (Sample.answers "$5M") "What was the revenue?" Sample.single_ready))
      = [user_turn "What was the revenue?"; assistant_turn "$5M"]
   /\ Single.calls
        (Single.ask (Sample.answers "$5M") "What was the revenue?" Sample.single_ready)
      = [{| messages := [user_turn "What was the revenue?"];
            system := Single.systemPrompt Sample.single_ready |}]).
Proof.
  destruct ask_success_appends_exchange as [HM HS]. split.
  - apply (HM (Sample.answers "$5M") "What was the revenue?" Sample.multi_ready "$5M");
      [discriminate | discriminate | reflexivity].
  - apply (HS (Sample.answers "$5M") "What was the revenue?" Sample.single_ready "$5M");
      [discriminate | discriminate | reflexivity].
Defined.

(** C6 at a batch of a PDF, a file that is not one, and another PDF; and
    at the single-document upload of the file that is not a PDF. *)
Lemma upload_failure_is_per_file_witness :
  Multi.upload Sample.extractor ([Sample.report] ++ Sample.broken :: [Sample.notes])
               Multi.initial
  = Multi.upload Sample.extractor ([Sample.report] ++ [Sample.notes]) Multi.initial
  /\ fst (Single.upload Sample.extractor Sample.corrupted Single.initial)
     = failure "Error processing PDF: Invalid PDF structure".
Proof.
  destruct upload_failure_is_per_file as (_ & _ & H3 & H4). split.
  - apply (H3 Sample.extractor [Sample.report] Sample.broken [Sample.notes] Multi.initial
              "Invalid PDF structure").
    reflexivity.
  - apply (H4 Sample.extractor Sample.corrupted Single.initial "Invalid PDF structure").
    reflexivity.
Defined.

(** Against C6 as stated: the single-document upload of a file that is not
    a PDF does not report success. *)
Lemma single_upload_reports_failure :
  Sample.extractor Sample.corrupted = inr "Invalid PDF structure"
  /\ success (fst (Single.upload Sample.extractor Sample.corrupted Single.initial)) = false
  /\ success (fst (Single.upload Sample.extractor Sample.corrupted Single.initial)) <> true.
Proof. split; [reflexivity|]. split; [reflexivity | discriminate]. Qed.

(** C7 before any upload. *)
Lemma ask_without_document_rejected_witness :
  Multi.ask (Sample.answers "$5M") "What was the revenue?" Multi.initial
  = {| Multi.response := failure "Please upload at least one PDF first.";
       Multi.after := Multi.initial; Multi.calls := [] |}
  /\ Multi.ask (Sample.answers "$5M") "" Multi.initial
     = {| Multi.response := failure "No question provided.";
          Multi.after := Multi.initial; Multi.calls := [] |}
  /\ Single.ask (Sample.answers "$5M") "What was the revenue?" Single.initial
     = {| Single.response := failure "Please upload a PDF first.";
          Single.after := Single.initial; Single.calls := [] |}
  /\ Single.ask (Sample.answers "$5M") "" Single.initial
     = {| Single.response := failure "No question provided.";
          Single.after := Single.initial; Single.calls := [] |}.
Proof.
  destruct ask_without_document_rejected as (H1 & H2 & H3 & H4).
  split; [|split; [|split]].
  - apply H1; [discriminate | reflexivity].
  - apply H2. reflexivity.
  - apply H3; [discriminate | reflexivity].
  - apply H4. reflexivity.
Defined.

(** C8 at the upload of a file that is not a PDF, after an answered
    question. *)
Lemma single_upload_failure_is_atomic_witness :
  Single.upload Sample.extractor Sample.corrupted Sample.single_talking
  = (failure "Error processing PDF: Invalid PDF structure", Sample.single_talking).
Proof.
  apply (single_upload_failure_is_atomic Sample.extractor Sample.corrupted
           Sample.single_talking "Invalid PDF structure").
  reflexivity.
Defined.


(** * Further properties of the servers *)

(** ** Reading and writing properties *)

Lemma has_own_app (k : string) (o1 o2 : JS.object) :
  JS.has_own k (o1 ++ o2) = JS.has_own k o1 || JS.has_own k o2.
Proof. unfold JS.has_own. apply existsb_app. Qed.

Lemma has_own_overwrite (k k' v : string) (o : JS.object) :
  JS.has_own k (JS.overwrite k' v o) = JS.has_own k o.
Proof.
  unfold JS.has_own. induction o as [|[k0 v0] o IH]; simpl; [reflexivity|].
  destruct (String.eqb k0 k'); simpl; [reflexivity | now rewrite IH].
Qed.

Lemma has_own_set_keeps (k k' v : string) (o : JS.object) :
  JS.has_own k o = true -> JS.has_own k (JS.set k' v o) = true.
Proof.
  intro H. unfold JS.set. destruct (String.eqb k' "__proto__"); [exact H|].
  destruct (JS.has_own k' o).
  - now rewrite has_own_overwrite.
  - rewrite has_own_app, H. reflexivity.
Qed.

Lemma length_overwrite (k v : string) (o : JS.object) :
  length (JS.overwrite k v o) = length o.
Proof.
  induction o as [|[k0 v0] o IH]; simpl; [reflexivity|].
  destruct (String.eqb k0 k); simpl; [reflexivity | now rewrite IH].
Qed.

Lemma length_set (k v : string) (o : JS.object) :
  length o <= length (JS.set k v o) <= S (length o).
Proof.
  unfold JS.set. destruct (String.eqb k "__proto__"); [lia|].
  destruct (JS.has_own k o).
  - rewrite length_overwrite. lia.
  - rewrite length_app. simpl. lia.
Qed.

Lemma own_property_app (k : string) (o1 o2 : JS.object) :
  own_property (o1 ++ o2) k
  = match own_property o1 k with
    | Some v => Some v
    | None => own_property o2 k
    end.
Proof.
  unfold own_property. induction o1 as [|[k0 v0] o1 IH]; simpl; [reflexivity|].
  destruct (String.eqb k0 k); [reflexivity | exact IH].
Qed.

Lemma own_property_absent (k : string) (o : JS.object) :
  JS.has_own k o = false -> own_property o k = None.
Proof.
  unfold own_property, JS.has_own. induction o as [|[k0 v0] o IH]; simpl; [reflexivity|].
  destruct (String.eqb k0 k); simpl; [discriminate | exact IH].
Qed.

Lemma own_property_overwrite_same (k v : string) (o : JS.object) :
  JS.has_own k o = true -> own_property (JS.overwrite k v o) k = Some v.
Proof.
  unfold own_property, JS.has_own. induction o as [|[k0 v0] o IH]; simpl; [discriminate|].
  destruct (String.eqb k0 k) eqn:E; simpl; rewrite E; [reflexivity | exact IH].
Qed.

Lemma own_property_overwrite_other (k k' v : string) (o : JS.object) :
  k <> k' -> own_property (JS.overwrite k' v o) k = own_property o k.
Proof.
  intro Hk. unfold own_property. induction o as [|[k0 v0] o IH]; simpl; [reflexivity|].
  destruct (String.eqb k0 k') eqn:E; simpl.
  - apply String.eqb_eq in E. subst k0.
    destruct (String.eqb k' k) eqn:E'; [|reflexivity].
    apply String.eqb_eq in E'. congruence.
  - destruct (String.eqb k0 k); [reflexivity | exact IH].
Qed.

Lemma own_property_set_same (k v : string) (o : JS.object) :
  k <> "__proto__" -> own_property (JS.set k v o) k = Some v.
Proof.
  intro Hk. unfold JS.set. apply String.eqb_neq in Hk. rewrite Hk.
  destruct (JS.has_own k o) eqn:E.
  - now apply own_property_overwrite_same.
  - rewrite own_property_app, (own_property_absent _ _ E).
    unfold own_property. simpl. now rewrite String.eqb_refl.
Qed.

Lemma own_property_set_other (k k' v : string) (o : JS.object) :
  k <> k' -> own_property (JS.set k' v o) k = own_property o k.
Proof.
  intro Hk. unfold JS.set. destruct (String.eqb k' "__proto__"); [reflexivity|].
  destruct (JS.has_own k' o).
  - now apply own_property_overwrite_other.
  - rewrite own_property_app. destruct (own_property o k); [reflexivity|].
    unfold own_property. simpl.
    destruct (String.eqb k' k) eqn:E; [|reflexivity].
    apply String.eqb_eq in E. congruence.
Qed.

Lemma store_keeps_own (docs : list (string * string)) :
  forall ctx k, JS.has_own k ctx = true -> JS.has_own k (Multi.store ctx docs) = true.
Proof.
  induction docs as [|d docs IH]; intros ctx k H; [exact H|].
  apply (IH (JS.set (fst d) (snd d) ctx)). now apply has_own_set_keeps.
Qed.

Lemma store_length (docs : list (string * string)) :
  forall ctx, length ctx <= length (Multi.store ctx docs) <= length ctx + length docs.
Proof.
  induction docs as [|d docs IH]; intro ctx; simpl; [lia|].
  pose proof (IH (JS.set (fst d) (snd d) ctx)) as H.
  pose proof (length_set (fst d) (snd d) ctx) as L.
  unfold Multi.store in *. simpl. lia.
Qed.

Lemma store_other (docs : list (string * string)) :
  forall ctx k,
    (forall d, In d docs -> fst d <> k) ->
    own_property (Multi.store ctx docs) k = own_property ctx k.
Proof.
  induction docs as [|d docs IH]; intros ctx k H; [reflexivity|].
  change (Multi.store ctx (d :: docs)) with (Multi.store (JS.set (fst d) (snd d) ctx) docs).
  rewrite IH by (intros d' Hd'; apply H; now right).
  apply own_property_set_other. intro E. apply (H d); [now left | now symmetry].
Qed.

Lemma extracted_names (PDFParser : Extractor) (files : list File) (d : string * string) :
  In d (Multi.extracted PDFParser files) ->
  exists f, In f files /\ filename f = fst d /\ PDFParser (buffer f) = inl (snd d).
Proof.
  induction files as [|f files IH]; simpl; [contradiction|].
  destruct (PDFParser (buffer f)) as [text|m] eqn:E.
  - intros [<-|H].
    + exists f. simpl. auto.
    + destruct (IH H) as (g & Hg & Hn & Hp). exists g. auto.
  - intro H. destruct (IH H) as (g & Hg & Hn & Hp). exists g. auto.
Qed.

(** ** Calls to the model API *)

Lemma multi_calls_eq post question s :
  Multi.calls (Multi.ask post question s)
  = if JS.not question || (length (JS.keys (Multi.pdfContexts s)) =? 0)%nat then []
    else [{| messages := Multi.conversationHistory s ++ [user_turn question];
             system := Multi.systemPrompt s |}].
Proof.
  unfold Multi.ask. destruct (JS.not question); [reflexivity|].
  destruct (length (JS.keys (Multi.pdfContexts s)) =? 0)%nat; [reflexivity|].
  simpl. now destruct (callClaudeAPI post _ _).
Qed.

Lemma single_calls_eq post question s :
  Single.calls (Single.ask post question s)
  = if JS.not question || JS.not (Single.pdfContext s) then []
    else [{| messages := Single.conversationHistory s ++ [user_turn question];
             system := Single.systemPrompt s |}].
Proof.
  unfold Single.ask. destruct (JS.not question); [reflexivity|].
  destruct (JS.not (Single.pdfContext s)); [reflexivity|].
  simpl. now destruct (callClaudeAPI post _ _).
Qed.

Lemma not_cases (s : string) : (s = "" /\ JS.not s = true) \/ (s <> "" /\ JS.not s = false).
Proof.
  destruct (string_dec s "") as [->|H]; [now left | right].
  split; [exact H | now apply not_false].
Qed.

Lemma keys_cases (o : JS.object) :
  (o = [] /\ (length (JS.keys o) =? 0)%nat = true)
  \/ (o <> [] /\ (length (JS.keys o) =? 0)%nat = false).
Proof.
  destruct o as [|p o]; [now left | right].
  split; [discriminate | apply some_keys; discriminate].
Qed.

Section Sync.
Variable PDFParser : Extractor.

(** The prompt follows the stored documents through a whole session. *)
Lemma multi_run_sync (rs : list Multi.request) :
  forall s,
    ((Multi.pdfContexts s = [] /\ Multi.systemPrompt s = "")
     \/ Multi.systemPrompt s = Multi.build_prompt (Multi.pdfContexts s)) ->
    (Multi.pdfContexts (Multi.run PDFParser rs s) = []
     /\ Multi.systemPrompt (Multi.run PDFParser rs s) = "")
    \/ Multi.systemPrompt (Multi.run PDFParser rs s)
       = Multi.build_prompt (Multi.pdfContexts (Multi.run PDFParser rs s)).
Proof.
  induction rs as [|r rs IH]; intros s H; [exact H|].
  apply (IH (Multi.handle PDFParser s r)).
  destruct r as [files|post question]; simpl.
  - right. now rewrite multi_upload_eq.
  - destruct (MultiAsk.multi_frame post question s) as [-> ->]. exact H.
Qed.

Lemma single_run_sync (rs : list Single.request) :
  forall s,
    ((Single.pdfContext s = "" /\ Single.systemPrompt s = "")
     \/ Single.systemPrompt s = Single.build_prompt (Single.pdfContext s)) ->
    (Single.pdfContext (Single.run PDFParser rs s) = ""
     /\ Single.systemPrompt (Single.run PDFParser rs s) = "")
    \/ Single.systemPrompt (Single.run PDFParser rs s)
       = Single.build_prompt (Single.pdfContext (Single.run PDFParser rs s)).
Proof.
  induction rs as [|r rs IH]; intros s H; [exact H|].
  apply (IH (Single.handle PDFParser s r)).
  destruct r as [buf|post question]; simpl.
  - unfold Single.upload. destruct (PDFParser buf); simpl; [now right | exact H].
  - destruct (SingleAsk.single_frame post question s) as [-> ->]. exact H.
Qed.

Lemma multi_run_grows (rs : list Multi.request) (s : Multi.state) :
  length (Multi.pdfContexts s) <= length (Multi.pdfContexts (Multi.run PDFParser rs s)).
Proof. rewrite multi_run_store. apply store_length. Qed.

End Sync.

(** X1.  Every call the servers make to the model API, in any state reached
    from the initial globals, carries as [system] the prompt built from the
    documents stored at that moment, and as [messages] the transcript
    followed by the question. *)
Theorem api_call_carries_current_documents :
  (forall PDFParser rs post question call,
     In call (Multi.calls (Multi.ask post question (Multi.run PDFParser rs Multi.initial))) ->
     system call
     = Multi.build_prompt (Multi.pdfContexts (Multi.run PDFParser rs Multi.initial))
     /\ messages call
        = Multi.conversationHistory (Multi.run PDFParser rs Multi.initial)
            ++ [user_turn question])
  /\ (forall PDFParser rs post question call,
        In call
           (Single.calls (Single.ask post question (Single.run PDFParser rs Single.initial))) ->
        system call
        = Single.build_prompt (Single.pdfContext (Single.run PDFParser rs Single.initial))
        /\ messages call
           = Single.conversationHistory (Single.run PDFParser rs Single.initial)
               ++ [user_turn question]).
Proof.
  split; intros PDFParser rs post question call.
  - rewrite multi_calls_eq. destruct (JS.not question); [contradiction|].
    destruct (keys_cases (Multi.pdfContexts (Multi.run PDFParser rs Multi.initial)))
      as [[_ ->]|[Hne ->]]; simpl; [contradiction|].
    intros [<-|[]]. simpl. split; [|reflexivity].
    destruct (multi_run_sync PDFParser rs Multi.initial) as [[H _]|H];
      [left; now split | contradiction | exact H].
  - rewrite single_calls_eq. destruct (JS.not question); [contradiction|].
    destruct (not_cases (Single.pdfContext (Single.run PDFParser rs Single.initial)))
      as [[_ ->]|[Hne ->]]; simpl; [contradiction|].
    intros [<-|[]]. simpl. split; [|reflexivity].
    destruct (single_run_sync PDFParser rs Single.initial) as [[H _]|H];
      [left; now split | contradiction | exact H].
Qed.

(** X2.  The first question after an upload starts a fresh conversation:
    the call carries that question alone, whatever was said before the
    upload.  In the single-document server this needs the extraction to
    succeed with a non-empty text. *)
Theorem ask_after_upload_is_fresh :
  (forall PDFParser files s post question,
     question <> "" ->
     Multi.pdfContexts (snd (Multi.upload PDFParser files s)) <> [] ->
     Multi.calls (Multi.ask post question (snd (Multi.upload PDFParser files s)))
     = [{| messages := [user_turn question];
           system := Multi.build_prompt
                       (Multi.pdfContexts (snd (Multi.upload PDFParser files s))) |}])
  /\ (forall PDFParser buf s post question text,
        question <> "" -> PDFParser buf = inl text -> text <> "" ->
        Single.calls (Single.ask post question (snd (Single.upload PDFParser buf s)))
        = [{| messages := [user_turn question];
              system := Single.build_prompt text |}]).
Proof.
  split.
  - intros PDFParser files s post question Hq Hs.
    rewrite multi_calls_eq, (not_false _ Hq), (some_keys _ Hs). simpl.
    now rewrite multi_upload_eq.
  - intros PDFParser buf s post question text Hq Hp Ht.
    rewrite single_calls_eq, (not_false _ Hq). unfold Single.upload. rewrite Hp. simpl.
    now rewrite (not_false _ Ht).
Qed.

(** X3.  The multi-document server never removes a document: a file name
    stored at some point is still stored after any further requests, the
    number of documents never decreases, and once one document is stored
    every later non-empty question reaches the model API. *)
Theorem multi_documents_never_removed :
  forall PDFParser rs s,
    (forall k, JS.has_own k (Multi.pdfContexts s) = true ->
               JS.has_own k (Multi.pdfContexts (Multi.run PDFParser rs s)) = true)
    /\ length (JS.keys (Multi.pdfContexts s))
       <= length (JS.keys (Multi.pdfContexts (Multi.run PDFParser rs s)))
    /\ (Multi.pdfContexts s <> [] ->
        forall post question,
          question <> "" ->
          Multi.calls (Multi.ask post question (Multi.run PDFParser rs s))
          = [{| messages :=
                  Multi.conversationHistory (Multi.run PDFParser rs s) ++ [user_turn question];
                system := Multi.systemPrompt (Multi.run PDFParser rs s) |}]).
Proof.
  intros PDFParser rs s. split; [|split].
  - intros k H. rewrite multi_run_store. now apply store_keeps_own.
  - rewrite !keys_length. apply multi_run_grows.
  - intros Hs post question Hq.
    rewrite multi_calls_eq, (not_false _ Hq).
    rewrite some_keys; [reflexivity|].
    pose proof (multi_run_grows PDFParser rs s) as L.
    destruct (Multi.pdfContexts s); [contradiction|].
    destruct (Multi.pdfContexts (Multi.run PDFParser rs s)); [simpl in L; lia | discriminate].
Qed.

(** ** Enumeration of the stored documents *)

Lemma insert_index_perm (n : N) (p : string * string) (l : list (N * (string * string))) :
  Permutation (map snd (JS.insert_index n p l)) (p :: map snd l).
Proof.
  induction l as [|[m q] l IH]; simpl; [apply Permutation_refl|].
  destruct (n <=? m)%N; simpl; [apply Permutation_refl|].
  apply perm_trans with (q :: p :: map snd l); [now apply perm_skip | apply perm_swap].
Qed.

(** Enumeration visits every own property once. *)
Lemma own_properties_perm (o : JS.object) : Permutation (JS.own_properties o) o.
Proof.
  unfold JS.own_properties. induction o as [|p o IH]; simpl; [apply Permutation_refl|].
  destruct (JS.array_index (fst p)); simpl.
  - apply perm_trans
      with ((p :: map snd (JS.index_properties o)) ++ JS.string_properties o).
    + apply Permutation_app_tail. apply insert_index_perm.
    + simpl. now apply perm_skip.
  - apply Permutation_sym. apply Permutation_cons_app. now apply Permutation_sym.
Qed.

Lemma keys_perm (o : JS.object) : Permutation (JS.keys o) (map fst o).
Proof. unfold JS.keys. apply Permutation_map. apply own_properties_perm. Qed.

Lemma values_perm (o : JS.object) : Permutation (JS.values o) (map snd o).
Proof. unfold JS.values. apply Permutation_map. apply own_properties_perm. Qed.

Lemma own_property_in (o : JS.object) (k v : string) :
  own_property o k = Some v -> In (k, v) o.
Proof.
  unfold own_property. destruct (find _ o) as [[k0 v0]|] eqn:F; [|discriminate].
  intro H. injection H as <-. apply find_some in F. destruct F as [Hin E].
  simpl in E. apply String.eqb_eq in E. now subst k0.
Qed.

Lemma in_own_property (o : JS.object) (k v : string) :
  NoDup (map fst o) -> In (k, v) o -> own_property o k = Some v.
Proof.
  unfold own_property. induction o as [|[k0 v0] o IH]; simpl; [contradiction|].
  intros Hnd [E|Hin].
  - injection E as -> ->. now rewrite String.eqb_refl.
  - inversion Hnd as [|? ? Hk0 Hnd']; subst.
    destruct (String.eqb k0 k) eqn:E.
    + apply String.eqb_eq in E. subst k0. exfalso. apply Hk0.
      apply (in_map fst) in Hin. exact Hin.
    + now apply IH.
Qed.

Lemma own_property_value (o : JS.object) (k v : string) :
  own_property o k = Some v -> In v (JS.values o).
Proof.
  intro H. apply own_property_in in H.
  apply (Permutation_in v (Permutation_sym (values_perm o))).
  apply (in_map snd) in H. exact H.
Qed.

Lemma has_own_in (k : string) (o : JS.object) :
  JS.has_own k o = true <-> In k (map fst o).
Proof.
  unfold JS.has_own. rewrite existsb_exists. split.
  - intros ([k0 v0] & Hin & E). simpl in E. apply String.eqb_eq in E. subst k0.
    apply (in_map fst) in Hin. exact Hin.
  - intro H. apply in_map_iff in H. destruct H as ([k0 v0] & E & Hin). simpl in E. subst k0.
    exists (k, v0). split; [exact Hin | apply String.eqb_refl].
Qed.

Lemma map_fst_overwrite (k v : string) (o : JS.object) :
  map fst (JS.overwrite k v o) = map fst o.
Proof.
  induction o as [|[k0 v0] o IH]; simpl; [reflexivity|].
  destruct (String.eqb k0 k); simpl; [reflexivity | now rewrite IH].
Qed.

Lemma set_nodup (k v : string) (o : JS.object) :
  NoDup (map fst o) -> NoDup (map fst (JS.set k v o)).
Proof.
  intro H. unfold JS.set. destruct (String.eqb k "__proto__"); [exact H|].
  destruct (JS.has_own k o) eqn:E.
  - now rewrite map_fst_overwrite.
  - rewrite map_app. simpl.
    apply Permutation_NoDup with (l := k :: map fst o).
    + apply Permutation_cons_append.
    + constructor; [|exact H]. intro Hin. apply has_own_in in Hin. congruence.
Qed.

Lemma store_nodup (docs : list (string * string)) :
  forall ctx, NoDup (map fst ctx) -> NoDup (map fst (Multi.store ctx docs)).
Proof.
  induction docs as [|d docs IH]; intros ctx H; [exact H|].
  apply (IH (JS.set (fst d) (snd d) ctx)). now apply set_nodup.
Qed.

(** X4.  In every state the multi-document server reaches, the stored file
    names are pairwise distinct, and the texts joined into the prompt are
    exactly the current texts of the stored names. *)
Theorem multi_store_is_a_map :
  forall PDFParser rs,
    NoDup (JS.keys (Multi.pdfContexts (Multi.run PDFParser rs Multi.initial)))
    /\ length (JS.values (Multi.pdfContexts (Multi.run PDFParser rs Multi.initial)))
       = length (JS.keys (Multi.pdfContexts (Multi.run PDFParser rs Multi.initial)))
    /\ forall v,
         In v (JS.values (Multi.pdfContexts (Multi.run PDFParser rs Multi.initial)))
         <-> exists k,
               own_property (Multi.pdfContexts (Multi.run PDFParser rs Multi.initial)) k
               = Some v.
Proof.
  intros PDFParser rs.
  assert (Hnd : NoDup (map fst (Multi.pdfContexts (Multi.run PDFParser rs Multi.initial)))).
  { rewrite multi_run_store. apply store_nodup. constructor. }
  split; [|split].
  - apply (Permutation_NoDup (Permutation_sym (keys_perm _)) Hnd).
  - unfold JS.values, JS.keys. now rewrite !length_map.
  - intro v. split.
    + intro H. apply (Permutation_in v (values_perm _)) in H.
      apply in_map_iff in H. destruct H as ([k v0] & E & Hin). simpl in E. subst v0.
      exists k. now apply in_own_property.
    + intros [k H]. now apply (own_property_value _ k).
Qed.

(** X5.  A multi-document upload stores the text of a file under its name,
    the last file of a name winning, and the text is among those joined into
    the new prompt; the name [__proto__] is excepted. *)
Theorem multi_upload_stores_text :
  forall PDFParser before file rest s text,
    PDFParser (buffer file) = inl text ->
    filename file <> "__proto__" ->
    (forall g, In g rest -> filename g <> filename file) ->
    own_property
      (Multi.pdfContexts (snd (Multi.upload PDFParser (before ++ file :: rest) s)))
      (filename file) = Some text
    /\ In text
          (JS.values
             (Multi.pdfContexts (snd (Multi.upload PDFParser (before ++ file :: rest) s)))).
Proof.
  intros PDFParser before file rest s text Hp Hn Hrest.
  assert (H : own_property
                (Multi.pdfContexts (snd (Multi.upload PDFParser (before ++ file :: rest) s)))
                (filename file) = Some text).
  { rewrite multi_upload_eq. simpl. rewrite extracted_app. simpl. rewrite Hp.
    rewrite store_app.
    change (Multi.store ?c ((filename file, text) :: ?l))
      with (Multi.store (JS.set (filename file) text c) l).
    rewrite store_other.
    - now apply own_property_set_same.
    - intros d Hd. destruct (extracted_names PDFParser rest d Hd) as (g & Hg & <- & _).
      now apply Hrest. }
  split; [exact H | now apply (own_property_value _ (filename file))].
Qed.

(** X6.  A multi-document upload leaves the text stored under every name
    that is not the name of a file of the batch as it was. *)
Theorem multi_upload_keeps_other_documents :
  forall PDFParser files s k,
    (forall g, In g files -> filename g <> k) ->
    own_property (Multi.pdfContexts (snd (Multi.upload PDFParser files s))) k
    = own_property (Multi.pdfContexts s) k.
Proof.
  intros PDFParser files s k H. rewrite multi_upload_eq. simpl.
  apply store_other. intros d Hd.
  destruct (extracted_names PDFParser files d Hd) as (g & Hg & <- & _). now apply H.
Qed.

Lemma insert_index_keys (n : N) (p1 p2 : string * string)
    (l1 l2 : list (N * (string * string))) :
  fst p1 = fst p2 ->
  map (fun x => (fst x, fst (snd x))) l1 = map (fun x => (fst x, fst (snd x))) l2 ->
  map (fun x => (fst x, fst (snd x))) (JS.insert_index n p1 l1)
  = map (fun x => (fst x, fst (snd x))) (JS.insert_index n p2 l2).
Proof.
  intro Hp. revert l2.
  induction l1 as [|[m1 q1] l1 IH]; intros [|[m2 q2] l2] H; simpl in *;
    try discriminate.
  - now rewrite Hp.
  - injection H as Hm Hq Hl. subst m2.
    destruct (n <=? m1)%N; simpl.
    + now rewrite Hp, Hq, Hl.
    + rewrite Hq. f_equal. now apply IH.
Qed.

(** The enumeration order depends on the keys alone. *)
Lemma keys_depend_on_keys (o1 : JS.object) :
  forall o2, map fst o1 = map fst o2 -> JS.keys o1 = JS.keys o2.
Proof.
  assert (I : forall o2, map fst o1 = map fst o2 ->
                map (fun x => (fst x, fst (snd x))) (JS.index_properties o1)
                = map (fun x => (fst x, fst (snd x))) (JS.index_properties o2)
                /\ map fst (JS.string_properties o1) = map fst (JS.string_properties o2)).
  { induction o1 as [|p1 o1 IH]; intros [|p2 o2] H; simpl in *; try discriminate.
    - now split.
    - injection H as Hp Ho. destruct (IH o2 Ho) as [I1 I2]. rewrite <- Hp.
      destruct (JS.array_index (fst p1)); simpl.
      + split; [now apply insert_index_keys | exact I2].
      + split; [exact I1 | now rewrite Hp, I2]. }
  intros o2 H. destruct (I o2 H) as [I1 I2].
  unfold JS.keys, JS.own_properties. rewrite !map_app, !map_map, I2. f_equal.
  apply (f_equal (map snd)) in I1. rewrite !map_map in I1. exact I1.
Qed.

Lemma keys_set_present (k v : string) (o : JS.object) :
  JS.has_own k o = true -> JS.keys (JS.set k v o) = JS.keys o.
Proof.
  intro H. unfold JS.set. destruct (String.eqb k "__proto__"); [reflexivity|].
  rewrite H. apply keys_depend_on_keys. apply map_fst_overwrite.
Qed.

(** X7.  Uploading again files whose names are all stored already replaces
    texts in place: the documents keep their number and their place in the
    enumeration that builds the prompt. *)
Theorem multi_reupload_keeps_order :
  forall PDFParser files s,
    (forall g, In g files -> JS.has_own (filename g) (Multi.pdfContexts s) = true) ->
    JS.keys (Multi.pdfContexts (snd (Multi.upload PDFParser files s)))
    = JS.keys (Multi.pdfContexts s).
Proof.
  intros PDFParser files s H. rewrite multi_upload_eq. simpl.
  assert (G : forall docs ctx,
             (forall d, In d docs -> JS.has_own (fst d) ctx = true) ->
             JS.keys (Multi.store ctx docs) = JS.keys ctx).
  { induction docs as [|d docs IH]; intros ctx Hd; [reflexivity|].
    change (Multi.store ctx (d :: docs)) with (Multi.store (JS.set (fst d) (snd d) ctx) docs).
    rewrite IH.
    - apply keys_set_present. apply Hd. now left.
    - intros d' Hd'. apply has_own_set_keeps. apply Hd. now right. }
  apply G. intros d Hd.
  destruct (extracted_names PDFParser files d Hd) as (g & Hg & <- & _). now apply H.
Qed.

(** X8.  A file named [__proto__] whose extraction succeeds is reported as
    uploaded, yet no document is stored for it: the stored documents are as
    before, and if there was none a question is still turned away. *)
Theorem multi_proto_file_is_not_stored :
  forall PDFParser file s text,
    filename file = "__proto__" ->
    PDFParser (buffer file) = inl text ->
    Multi.upload PDFParser [file] s
    = (success_message "PDFs uploaded and processed successfully: __proto__",
       {| Multi.pdfContexts := Multi.pdfContexts s;
          Multi.systemPrompt := Multi.build_prompt (Multi.pdfContexts s);
          Multi.conversationHistory := [] |})
    /\ (Multi.pdfContexts s = [] ->
        forall post question,
          question <> "" ->
          Multi.ask post question (snd (Multi.upload PDFParser [file] s))
          = {| Multi.response := failure "Please upload at least one PDF first.";
               Multi.after := snd (Multi.upload PDFParser [file] s);
               Multi.calls := [] |}).
Proof.
  intros PDFParser file s text Hn Hp.
  assert (E : Multi.upload PDFParser [file] s
              = (success_message "PDFs uploaded and processed successfully: __proto__",
                 {| Multi.pdfContexts := Multi.pdfContexts s;
                    Multi.systemPrompt := Multi.build_prompt (Multi.pdfContexts s);
                    Multi.conversationHistory := [] |})).
  { rewrite multi_upload_eq. simpl. rewrite Hp, Hn. reflexivity. }
  split; [exact E|].
  intros Hs post question Hq. rewrite E. simpl.
  now apply MultiAsk.multi_no_document.
Qed.

(** X9.  In the single-document server an upload whose extracted text is
    empty is reported as a success, yet afterwards no question reaches the
    model API: each non-empty one is turned away with [Please upload a PDF
    first.], also when a document was stored before. *)
Theorem single_empty_text_blocks_questions :
  forall PDFParser buf s,
    PDFParser buf = inl "" ->
    fst (Single.upload PDFParser buf s)
    = success_message "PDF uploaded and processed successfully."
    /\ forall post question,
         question <> "" ->
         Single.ask post question (snd (Single.upload PDFParser buf s))
         = {| Single.response := failure "Please upload a PDF first.";
              Single.after := snd (Single.upload PDFParser buf s);
              Single.calls := [] |}.
Proof.
  intros PDFParser buf s Hp. unfold Single.upload. rewrite Hp. simpl.
  split; [reflexivity|]. intros post question Hq.
  now apply SingleAsk.single_no_document.
Qed.

(** X10.  An ask calls the model API exactly when the question is not empty
    and a document is stored, and replies with success exactly when,
    moreover, the call returned a text. *)
Theorem ask_calls_api_iff :
  (forall post question s,
     (Multi.calls (Multi.ask post question s) <> []
      <-> question <> "" /\ Multi.pdfContexts s <> [])
     /\ (success (Multi.response (Multi.ask post question s)) = true
         <-> question <> "" /\ Multi.pdfContexts s <> []
             /\ exists text,
                  post (Multi.conversationHistory s ++ [user_turn question])
                       (Multi.systemPrompt s) = inl text))
  /\ (forall post question s,
        (Single.calls (Single.ask post question s) <> []
         <-> question <> "" /\ Single.pdfContext s <> "")
        /\ (success (Single.response (Single.ask post question s)) = true
            <-> question <> "" /\ Single.pdfContext s <> ""
                /\ exists text,
                     post (Single.conversationHistory s ++ [user_turn question])
                          (Single.systemPrompt s) = inl text)).
Proof.
  split; intros post question s.
  - destruct (not_cases question) as [[-> _]|[Hq _]].
    { rewrite MultiAsk.multi_no_question. simpl. intuition congruence. }
    destruct (keys_cases (Multi.pdfContexts s)) as [[Hs _]|[Hs _]].
    { rewrite (MultiAsk.multi_no_document _ _ _ Hq Hs). simpl. intuition congruence. }
    destruct (post (Multi.conversationHistory s ++ [user_turn question])
                   (Multi.systemPrompt s)) as [text|detail] eqn:Hp.
    + rewrite (MultiAsk.multi_answered _ _ _ _ Hq Hs Hp). simpl.
      assert (exists t : string, @inl string string text = inl t) by now exists text.
      intuition congruence.
    + rewrite (MultiAsk.multi_refused _ _ _ _ Hq Hs Hp). simpl.
      assert (~ exists t : string, @inr string string detail = inl t)
        by (intros [t Ht]; discriminate).
      intuition congruence.
  - destruct (not_cases question) as [[-> _]|[Hq _]].
    { rewrite SingleAsk.single_no_question. simpl. intuition congruence. }
    destruct (not_cases (Single.pdfContext s)) as [[Hs _]|[Hs _]].
    { rewrite (SingleAsk.single_no_document _ _ _ Hq Hs). simpl. intuition congruence. }
    destruct (post (Single.conversationHistory s ++ [user_turn question])
                   (Single.systemPrompt s)) as [text|detail] eqn:Hp.
    + rewrite (SingleAsk.single_answered _ _ _ _ Hq Hs Hp). simpl.
      assert (exists t : string, @inl string string text = inl t) by now exists text.
      intuition congruence.
    + rewrite (SingleAsk.single_refused _ _ _ _ Hq Hs Hp). simpl.
      assert (~ exists t : string, @inr string string detail = inl t)
        by (intros [t Ht]; discriminate).
      intuition congruence.
Qed.

(** X11.  The reply of an ask has either [success: true] with an [answer]
    and no [message], or [success: false] with a [message] and no [answer];
    the reply of an upload always has a [message] and no [answer]. *)
Theorem replies_have_the_field_read :
  (forall post question s,
     (exists a, Multi.response (Multi.ask post question s) = success_answer a)
     \/ (exists m, Multi.response (Multi.ask post question s) = failure m))
  /\ (forall post question s,
        (exists a, Single.response (Single.ask post question s) = success_answer a)
        \/ (exists m, Single.response (Single.ask post question s) = failure m))
  /\ (forall PDFParser files s,
        exists m, fst (Multi.upload PDFParser files s) = success_message m)
  /\ (forall PDFParser buf s,
        exists m, fst (Single.upload PDFParser buf s) = success_message m
                  \/ fst (Single.upload PDFParser buf s) = failure m).
Proof.
  split; [|split; [|split]].
  - intros post question s. unfold Multi.ask.
    destruct (JS.not question); [right; eexists; reflexivity|].
    destruct (length (JS.keys (Multi.pdfContexts s)) =? 0)%nat;
      [right; eexists; reflexivity|].
    simpl. destruct (callClaudeAPI post _ _); [left | right]; eexists; reflexivity.
  - intros post question s. unfold Single.ask.
    destruct (JS.not question); [right; eexists; reflexivity|].
    destruct (JS.not (Single.pdfContext s)); [right; eexists; reflexivity|].
    simpl. destruct (callClaudeAPI post _ _); [left | right]; eexists; reflexivity.
  - intros. rewrite multi_upload_eq. eexists. reflexivity.
  - intros. unfold Single.upload. destruct (PDFParser buf); eexists; simpl; eauto.
Qed.

Lemma multi_ask_growth post question s :
  exists ext,
    Multi.conversationHistory (Multi.after (Multi.ask post question s))
    = Multi.conversationHistory s ++ ext
    /\ length ext <= 2.
Proof.
  destruct (MultiAsk.multi_cases post question s)
    as [(_ & -> & _)|[(_ & -> & _)|[(text & ->)| ->]]]; simpl.
  - exists []. rewrite app_nil_r. simpl. auto.
  - exists []. rewrite app_nil_r. simpl. auto.
  - exists [user_turn question; assistant_turn text]. simpl. auto.
  - exists [user_turn question]. simpl. auto.
Qed.

Lemma single_ask_growth post question s :
  exists ext,
    Single.conversationHistory (Single.after (Single.ask post question s))
    = Single.conversationHistory s ++ ext
    /\ length ext <= 2.
Proof.
  destruct (SingleAsk.single_cases post question s)
    as [(_ & -> & _)|[(_ & -> & _)|[(text & ->)| ->]]]; simpl.
  - exists []. rewrite app_nil_r. simpl. auto.
  - exists []. rewrite app_nil_r. simpl. auto.
  - exists [user_turn question; assistant_turn text]. simpl. auto.
  - exists [user_turn question]. simpl. auto.
Qed.

(** X12.  Asking only appends: over any run of asks the stored documents
    and the prompt stay as they were, every earlier turn stays in place, and
    at most two turns are added per ask. *)
Theorem asks_only_append :
  (forall l s,
     Multi.pdfContexts (Multi.ask_all l s) = Multi.pdfContexts s
     /\ Multi.systemPrompt (Multi.ask_all l s) = Multi.systemPrompt s
     /\ exists ext,
          Multi.conversationHistory (Multi.ask_all l s) = Multi.conversationHistory s ++ ext
          /\ length ext <= 2 * length l)
  /\ (forall l s,
        Single.pdfContext (Single.ask_all l s) = Single.pdfContext s
        /\ Single.systemPrompt (Single.ask_all l s) = Single.systemPrompt s
        /\ exists ext,
             Single.conversationHistory (Single.ask_all l s)
             = Single.conversationHistory s ++ ext
             /\ length ext <= 2 * length l).
Proof.
  split.
  - induction l as [|[post question] l IH]; intro s.
    + split; [reflexivity|]. split; [reflexivity|]. exists []. now rewrite app_nil_r.
    + change (Multi.ask_all ((post, question) :: l) s)
        with (Multi.ask_all l (Multi.after (Multi.ask post question s))).
      destruct (IH (Multi.after (Multi.ask post question s))) as (H1 & H2 & e2 & H3 & L2).
      destruct (MultiAsk.multi_frame post question s) as [F1 F2].
      destruct (multi_ask_growth post question s) as (e1 & E1 & L1).
      rewrite H1, H2, H3, F1, F2, E1. split; [reflexivity|]. split; [reflexivity|].
      exists (e1 ++ e2). rewrite app_assoc, length_app. split; [reflexivity|]. simpl. lia.
  - induction l as [|[post question] l IH]; intro s.
    + split; [reflexivity|]. split; [reflexivity|]. exists []. now rewrite app_nil_r.
    + change (Single.ask_all ((post, question) :: l) s)
        with (Single.ask_all l (Single.after (Single.ask post question s))).
      destruct (IH (Single.after (Single.ask post question s))) as (H1 & H2 & e2 & H3 & L2).
      destruct (SingleAsk.single_frame post question s) as [F1 F2].
      destruct (single_ask_growth post question s) as (e1 & E1 & L1).
      rewrite H1, H2, H3, F1, F2, E1. split; [reflexivity|]. split; [reflexivity|].
      exists (e1 ++ e2). rewrite app_assoc, length_app. split; [reflexivity|]. simpl. lia.
Qed.

(** * Properties of the page scripts *)

(** ** Trimming *)





Lemma askQuestion_posts_nonempty (input question : string) :
  askQuestion_posts input = Some question -> question <> "".
Proof.
  unfold askQuestion_posts.
  destruct (not_cases (JS.trim input)) as [[_ ->]|[Hne ->]]; [discriminate|].
  intro H. now injection H as <-.
Qed.


(** ** Asking through the page *)





(** X15.  When the question is answered, the page and the server record the
    same exchange: the chat gains the trimmed question in a user bubble and
    the answer in a reply bubble, the transcript gains the user turn and the
    assistant turn with the same two texts, and the input is cleared. *)
Theorem page_chat_mirrors_exchange :
  (forall post p s log question text,
     askQuestion_posts (Page.questionInput p) = Some question ->
     Multi.pdfContexts s <> [] ->
     post (Multi.conversationHistory s ++ [user_turn question]) (Multi.systemPrompt s)
       = inl text ->
     Page.askQuestion _ (Route.multi_ask post) p (s, log)
     = ({| Page.uploadedFiles := Page.uploadedFiles p;
           Page.fileList := Page.fileList p;
           Page.questionInput := "";
           Page.chat :=
             Page.chat p
               ++ [{| Page.className := "bg-blue-100 p-2 rounded mb-2";
                      Page.textContent := question |};
                   {| Page.className := "bg-green-100 p-2 rounded mb-2";
                      Page.textContent := text |}];
           Page.alerts := Page.alerts p |},
        ({| Multi.pdfContexts := Multi.pdfContexts s;
            Multi.systemPrompt := Multi.systemPrompt s;
            Multi.conversationHistory :=
              Multi.conversationHistory s ++ [user_turn question; assistant_turn text] |},
         log ++ [{| messages := Multi.conversationHistory s ++ [user_turn question];
                    system := Multi.systemPrompt s |}])))
  /\ (forall post p s log question text,
        askQuestion_posts (Page.questionInput p) = Some question ->
        Single.pdfContext s <> "" ->
        post (Single.conversationHistory s ++ [user_turn question]) (Single.systemPrompt s)
          = inl text ->
        Page.askQuestion _ (Route.single_ask post) p (s, log)
        = ({| Page.uploadedFiles := Page.uploadedFiles p;
              Page.fileList := Page.fileList p;
              Page.questionInput := "";
              Page.chat :=
                Page.chat p
                  ++ [{| Page.className := "bg-blue-100 p-2 rounded mb-2";
                         Page.textContent := question |};
                      {| Page.className := "bg-green-100 p-2 rounded mb-2";
                         Page.textContent := text |}];
              Page.alerts := Page.alerts p |},
           ({| Single.pdfContext := Single.pdfContext s;
               Single.systemPrompt := Single.systemPrompt s;
               Single.conversationHistory :=
                 Single.conversationHistory s ++ [user_turn question; assistant_turn text] |},
            log ++ [{| messages := Single.conversationHistory s ++ [user_turn question];
                       system := Single.systemPrompt s |}]))).
Proof.
  split; intros post p s log question text Hposts Hs Hp.
  - pose proof (askQuestion_posts_nonempty _ _ Hposts) as Hq.
    unfold Page.askQuestion. rewrite Hposts. unfold Route.multi_ask. simpl.
    rewrite (MultiAsk.multi_answered _ _ _ _ Hq Hs Hp). simpl.
    unfold Page.addMessageToChat. simpl. now rewrite <- app_assoc.
  - pose proof (askQuestion_posts_nonempty _ _ Hposts) as Hq.
    unfold Page.askQuestion. rewrite Hposts. unfold Route.single_ask. simpl.
    rewrite (SingleAsk.single_answered _ _ _ _ Hq Hs Hp). simpl.
    unfold Page.addMessageToChat. simpl. now rewrite <- app_assoc.
Qed.

(** X16.  When the question is not answered the page and the server part
    ways.  If the model API call fails, the chat shows the question and the
    error and the input is cleared, while the transcript keeps the question
    as a user turn.  If the fetch itself fails, the chat shows the question
    and the error, and the input keeps its text. *)
Theorem page_shows_failure_server_keeps_question :
  (forall World fetch p w question m w',
     askQuestion_posts (Page.questionInput p) = Some question ->
     fetch question w = (inr m, w') ->
     Page.askQuestion World fetch p w
     = ({| Page.uploadedFiles := Page.uploadedFiles p;
           Page.fileList := Page.fileList p;
           Page.questionInput := Page.questionInput p;
           Page.chat :=
             Page.chat p
               ++ [{| Page.className := "bg-blue-100 p-2 rounded mb-2";
                      Page.textContent := question |};
                   {| Page.className := "bg-green-100 p-2 rounded mb-2";
                      Page.textContent := ("Error asking question: " ++ m)%string |}];
           Page.alerts := Page.alerts p |}, w'))
  /\ (forall post p s log question detail,
        askQuestion_posts (Page.questionInput p) = Some question ->
        Multi.pdfContexts s <> [] ->
        post (Multi.conversationHistory s ++ [user_turn question]) (Multi.systemPrompt s)
          = inr detail ->
        Page.askQuestion _ (Route.multi_ask post) p (s, log)
        = ({| Page.uploadedFiles := Page.uploadedFiles p;
              Page.fileList := Page.fileList p;
              Page.questionInput := "";
              Page.chat :=
                Page.chat p
                  ++ [{| Page.className := "bg-blue-100 p-2 rounded mb-2";
                         Page.textContent := question |};
                      {| Page.className := "bg-green-100 p-2 rounded mb-2";
                         Page.textContent :=
                           ("Error: Failed to get response from Claude API: " ++ detail)%string |}];
              Page.alerts := Page.alerts p |},
           ({| Multi.pdfContexts := Multi.pdfContexts s;
               Multi.systemPrompt := Multi.systemPrompt s;
               Multi.conversationHistory :=
                 Multi.conversationHistory s ++ [user_turn question] |},
            log ++ [{| messages := Multi.conversationHistory s ++ [user_turn question];
                       system := Multi.systemPrompt s |}])))
  /\ (forall post p s log question detail,
        askQuestion_posts (Page.questionInput p) = Some question ->
        Single.pdfContext s <> "" ->
        post (Single.conversationHistory s ++ [user_turn question]) (Single.systemPrompt s)
          = inr detail ->
        Page.askQuestion _ (Route.single_ask post) p (s, log)
        = ({| Page.uploadedFiles := Page.uploadedFiles p;
              Page.fileList := Page.fileList p;
              Page.questionInput := "";
              Page.chat :=
                Page.chat p
                  ++ [{| Page.className := "bg-blue-100 p-2 rounded mb-2";
                         Page.textContent := question |};
                      {| Page.className := "bg-green-100 p-2 rounded mb-2";
                         Page.textContent :=
                           ("Error: Failed to get response from Claude API: " ++ detail)%string |}];
              Page.alerts := Page.alerts p |},
           ({| Single.pdfContext := Single.pdfContext s;
               Single.systemPrompt := Single.systemPrompt s;
               Single.conversationHistory :=
                 Single.conversationHistory s ++ [user_turn question] |},
            log ++ [{| messages := Single.conversationHistory s ++ [user_turn question];
                       system := Single.systemPrompt s |}]))).
Proof.
  split; [|split].
  - intros World fetch p w question m w' Hposts Hf.
    unfold Page.askQuestion. rewrite Hposts, Hf.
    unfold Page.addMessageToChat. simpl. now rewrite <- app_assoc.
  - intros post p s log question detail Hposts Hs Hp.
    pose proof (askQuestion_posts_nonempty _ _ Hposts) as Hq.
    unfold Page.askQuestion. rewrite Hposts. unfold Route.multi_ask. simpl.
    rewrite (MultiAsk.multi_refused _ _ _ _ Hq Hs Hp). simpl.
    unfold Page.addMessageToChat. simpl. now rewrite <- app_assoc.
  - intros post p s log question detail Hposts Hs Hp.
    pose proof (askQuestion_posts_nonempty _ _ Hposts) as Hq.
    unfold Page.askQuestion. rewrite Hposts. unfold Route.single_ask. simpl.
    rewrite (SingleAsk.single_refused _ _ _ _ Hq Hs Hp). simpl.
    unfold Page.addMessageToChat. simpl. now rewrite <- app_assoc.
Qed.

(** ** Uploading through the multi-document page *)




(** What the loop of [handleFileUpload] leaves behind. *)
Lemma append_files_eq (files : list Page.BrowserFile) :
  forall formData p,
    fst (Page.append_files files formData p)
    = formData ++ map Page.part (filter Page.within_limit files)
    /\ Page.uploadedFiles (snd (Page.append_files files formData p))
       = fold_left (fun l f => Page.set_add (Page.name f) l)
                   (filter Page.within_limit files) (Page.uploadedFiles p)
    /\ Page.alerts (snd (Page.append_files files formData p))
       = Page.alerts p
           ++ map Page.too_large (filter (fun f => negb (Page.within_limit f)) files)
    /\ Page.fileList (snd (Page.append_files files formData p)) = Page.fileList p
    /\ Page.questionInput (snd (Page.append_files files formData p)) = Page.questionInput p
    /\ Page.chat (snd (Page.append_files files formData p)) = Page.chat p.
Proof.
  induction files as [|f files IH]; intros formData p.
  - simpl. rewrite !app_nil_r. repeat split.
  - cbn [Page.append_files filter].
    change (Page.size f <=? 10 * 1024 * 1024)%N with (Page.within_limit f).
    destruct (Page.within_limit f) eqn:E; cbn [negb map fold_left].
    + match goal with
      | |- context [Page.append_files files ?fd ?q] =>
          destruct (IH fd q) as (H1 & H2 & H3 & H4 & H5 & H6)
      end.
      rewrite H1, H2, H3, H4, H5, H6. cbn. rewrite <- app_assoc. repeat split.
    + fold (Page.too_large f).
      destruct (IH formData (Page.alert (Page.too_large f) p))
        as (H1 & H2 & H3 & H4 & H5 & H6).
      rewrite H1, H2, H3, H4, H5, H6. cbn. rewrite <- app_assoc. repeat split.
Qed.





Lemma multi_upload_route (PDFParser : Extractor) (files : list Page.BrowserFile) p s log :
  snd (Page.handleFileUpload _ (Route.multi_upload PDFParser) files p (s, log))
  = (snd (Multi.upload PDFParser (map Page.part (filter Page.within_limit files)) s), log)
  /\ (Page.chat (fst (Page.handleFileUpload _ (Route.multi_upload PDFParser) files p (s, log)))
      = Page.chat p
          ++ [{| Page.className := "bg-green-100 p-2 rounded mb-2";
                 Page.textContent :=
                   "PDFs uploaded successfully. You can now ask questions about their content." |}]).
Proof.
  unfold Page.handleFileUpload.
  destruct (append_files_eq files [] p) as (H1 & H2 & H3 & H4 & H5 & H6).
  destruct (Page.append_files files [] p) as [formData p1]. simpl in *. subst formData.
  unfold Route.multi_upload. simpl. rewrite multi_upload_eq. simpl.
  now rewrite H6.
Qed.

(** X17.  [handleFileUpload] sends one request whose body holds exactly the
    chosen files of at most 10 MB, in the order chosen; each larger file gets
    its alert and is not sent. *)
Theorem page_posts_files_within_limit :
  forall (reply : Reply + string) files p (sent : list (list File)),
    snd (Page.handleFileUpload _ (fun body w => (reply, w ++ [body])) files p sent)
    = sent ++ [map Page.part (filter Page.within_limit files)]
    /\ forall f,
         In f files -> Page.within_limit f = false ->
         In (Page.too_large f)
            (Page.alerts
               (fst (Page.handleFileUpload _ (fun body w => (reply, w ++ [body]))
                                           files p sent))).
Proof.
  intros reply files p sent. unfold Page.handleFileUpload.
  destruct (append_files_eq files [] p) as (H1 & H2 & H3 & H4 & H5 & H6).
  destruct (Page.append_files files [] p) as [formData p1]. simpl in *. subst formData.
  assert (A : forall f, In f files -> Page.within_limit f = false ->
                        In (Page.too_large f) (Page.alerts p1)).
  { intros f Hf Hl. rewrite H3. apply in_or_app. right. apply in_map.
    apply filter_In. split; [exact Hf | now rewrite Hl]. }
  destruct reply as [result|m]; simpl.
  - split; [reflexivity|]. intros f Hf Hl.
    destruct (success result); simpl; [now apply A|].
    apply in_or_app. left. now apply A.
  - split; [reflexivity|]. intros f Hf Hl. apply in_or_app. left. now apply A.
Qed.



Lemma extracted_none (PDFParser : Extractor) (files : list File) :
  (forall g, In g files -> exists m, PDFParser (buffer g) = inr m) ->
  Multi.extracted PDFParser files = [].
Proof.
  induction files as [|g files IH]; intro H; [reflexivity|].
  simpl. destruct (H g (or_introl eq_refl)) as [m ->].
  apply IH. intros g' Hg'. apply H. now right.
Qed.

(** X20.  When none of the files sent can be extracted, the multi-document
    page still announces the upload as successful, while the server stores
    nothing new; if it had no document it turns the next question away. *)
Theorem page_announces_upload_without_documents :
  forall PDFParser files p s log,
    (forall f, In f files -> Page.within_limit f = true ->
               exists m, PDFParser (Page.data f) = inr m) ->
    Page.chat (fst (Page.handleFileUpload _ (Route.multi_upload PDFParser) files p (s, log)))
    = Page.chat p
        ++ [{| Page.className := "bg-green-100 p-2 rounded mb-2";
               Page.textContent :=
                 "PDFs uploaded successfully. You can now ask questions about their content." |}]
    /\ Multi.pdfContexts
         (fst (snd (Page.handleFileUpload _ (Route.multi_upload PDFParser) files p (s, log))))
       = Multi.pdfContexts s
    /\ (Multi.pdfContexts s = [] ->
        forall post question,
          question <> "" ->
          Multi.response
            (Multi.ask post question
               (fst (snd (Page.handleFileUpload _ (Route.multi_upload PDFParser)
                                                files p (s, log)))))
          = failure "Please upload at least one PDF first.").
Proof.
  intros PDFParser files p s log H.
  destruct (multi_upload_route PDFParser files p s log) as [-> ->].
  split; [reflexivity|]. simpl. rewrite multi_upload_eq. simpl.
  rewrite extracted_none.
  - split; [reflexivity|]. intros Hs post question Hq.
    now rewrite MultiAsk.multi_no_document.
  - intros g Hg. apply in_map_iff in Hg. destruct Hg as (f & <- & Hf).
    apply filter_In in Hf. destruct Hf as [Hf Hl]. now apply H.
Qed.

(** ** Uploading through the single-document page *)

(** X21.  [uploadPDF] with no file chosen shows its alert and sends nothing.
    With a file chosen it sends the first one; the alert repeats the
    server's message, and the chat gains its upload bubble exactly when the
    server stored the text. *)
Theorem single_page_upload :
  (forall World fetch p (w : World),
     Page.uploadPDF World fetch [] p w = (Page.alert "Please select a PDF file" p, w))
  /\ (forall PDFParser file rest p s log text,
        PDFParser (Page.data file) = inl text ->
        Page.uploadPDF _ (Route.single_upload PDFParser) (file :: rest) p (s, log)
        = ({| Page.uploadedFiles := Page.uploadedFiles p;
              Page.fileList := Page.fileList p;
              Page.questionInput := Page.questionInput p;
              Page.chat :=
                Page.chat p
                  ++ [{| Page.className := "bg-green-100 p-2 rounded mb-2";
                         Page.textContent :=
                           "PDF uploaded successfully. You can now ask questions about its content." |}];
              Page.alerts := Page.alerts p ++ ["PDF uploaded and processed successfully."] |},
           ({| Single.pdfContext := text;
               Single.systemPrompt := Single.build_prompt text;
               Single.conversationHistory := [] |}, log)))
  /\ (forall PDFParser file rest p s log m,
        PDFParser (Page.data file) = inr m ->
        Page.uploadPDF _ (Route.single_upload PDFParser) (file :: rest) p (s, log)
        = ({| Page.uploadedFiles := Page.uploadedFiles p;
              Page.fileList := Page.fileList p;
              Page.questionInput := Page.questionInput p;
              Page.chat := Page.chat p;
              Page.alerts := Page.alerts p ++ [("Error processing PDF: " ++ m)%string] |},
           (s, log))).
Proof.
  split; [reflexivity|]. split.
  - intros PDFParser file rest p s log text H.
    unfold Page.uploadPDF, Route.single_upload, Single.upload. simpl. rewrite H. reflexivity.
  - intros PDFParser file rest p s log m H.
    unfold Page.uploadPDF, Route.single_upload, Single.upload. simpl. rewrite H. reflexivity.
Qed.

(** ** Uploading the same batch again *)

(** The text a list of pairs leaves under a name: that of its last pair with
    the name. *)
Lemma store_lookup (docs : list (string * string)) :
  forall ctx k,
    k <> "__proto__" ->
    own_property (Multi.store ctx docs) k
    = match find (fun d => String.eqb (fst d) k) (rev docs) with
      | Some d => Some (snd d)
      | None => own_property ctx k
      end.
Proof.
  induction docs as [|d docs IH] using rev_ind; intros ctx k Hk; [reflexivity|].
  rewrite store_app, rev_app_distr. simpl.
  change (Multi.store (Multi.store ctx docs) [d])
    with (JS.set (fst d) (snd d) (Multi.store ctx docs)).
  destruct (String.eqb (fst d) k) eqn:E.
  - apply String.eqb_eq in E. subst k. now apply own_property_set_same.
  - apply String.eqb_neq in E. rewrite own_property_set_other by congruence.
    now apply IH.
Qed.

Lemma store_proto (docs : list (string * string)) :
  forall ctx, own_property (Multi.store ctx docs) "__proto__" = own_property ctx "__proto__".
Proof.
  induction docs as [|d docs IH]; intro ctx; [reflexivity|].
  change (Multi.store ctx (d :: docs)) with (Multi.store (JS.set (fst d) (snd d) ctx) docs).
  rewrite IH. destruct (string_dec (fst d) "__proto__") as [E|E].
  - unfold JS.set. rewrite E. reflexivity.
  - apply own_property_set_other. congruence.
Qed.

Lemma map_fst_set_present (k v : string) (o : JS.object) :
  k = "__proto__" \/ JS.has_own k o = true -> map fst (JS.set k v o) = map fst o.
Proof.
  intro H. unfold JS.set. destruct (String.eqb k "__proto__") eqn:E; [reflexivity|].
  destruct H as [->|H]; [discriminate|]. rewrite H. apply map_fst_overwrite.
Qed.

Lemma has_own_set_same (k v : string) (o : JS.object) :
  k <> "__proto__" -> JS.has_own k (JS.set k v o) = true.
Proof.
  intro Hk. unfold JS.set. apply String.eqb_neq in Hk. rewrite Hk.
  destruct (JS.has_own k o) eqn:E.
  - now rewrite has_own_overwrite.
  - rewrite has_own_app, E. unfold JS.has_own. simpl. now rewrite String.eqb_refl.
Qed.

Lemma store_owns (docs : list (string * string)) :
  forall ctx d,
    In d docs -> fst d = "__proto__" \/ JS.has_own (fst d) (Multi.store ctx docs) = true.
Proof.
  induction docs as [|d0 docs IH]; intros ctx d H; [contradiction|].
  change (Multi.store ctx (d0 :: docs)) with (Multi.store (JS.set (fst d0) (snd d0) ctx) docs).
  destruct H as [->|H]; [|now apply IH].
  destruct (string_dec (fst d) "__proto__") as [E|E]; [now left | right].
  apply store_keeps_own. now apply has_own_set_same.
Qed.

Lemma store_again_keys (docs : list (string * string)) :
  forall o,
    (forall d, In d docs -> fst d = "__proto__" \/ JS.has_own (fst d) o = true) ->
    map fst (Multi.store o docs) = map fst o.
Proof.
  induction docs as [|d docs IH]; intros o H; [reflexivity|].
  change (Multi.store o (d :: docs)) with (Multi.store (JS.set (fst d) (snd d) o) docs).
  rewrite IH.
  - apply map_fst_set_present. apply H. now left.
  - intros d' Hd'. destruct (H d' (or_intror Hd')) as [E|E]; [now left | right].
    now apply has_own_set_keeps.
Qed.

Lemma object_ext (o1 : JS.object) :
  forall o2,
    NoDup (map fst o1) -> map fst o1 = map fst o2 ->
    (forall k, own_property o1 k = own_property o2 k) -> o1 = o2.
Proof.
  induction o1 as [|[k1 v1] o1 IH]; intros [|[k2 v2] o2] Hnd Hk Hv; simpl in *;
    try discriminate; [reflexivity|].
  injection Hk as <- Hk. inversion Hnd as [|? ? Hn Hnd']; subst.
  pose proof (Hv k1) as H1. unfold own_property in H1. simpl in H1.
  rewrite String.eqb_refl in H1. injection H1 as <-.
  f_equal. apply IH; [exact Hnd' | exact Hk |].
  intro k. pose proof (Hv k) as H. unfold own_property in H. simpl in H.
  destruct (String.eqb k1 k) eqn:E; [|exact H].
  apply String.eqb_eq in E. subst k.
  rewrite (own_property_absent k1 o1), (own_property_absent k1 o2); [reflexivity | |].
  - destruct (JS.has_own k1 o2) eqn:F; [|reflexivity].
    apply has_own_in in F. rewrite <- Hk in F. contradiction.
  - destruct (JS.has_own k1 o1) eqn:F; [|reflexivity].
    apply has_own_in in F. contradiction.
Qed.

Lemma store_again (docs : list (string * string)) (ctx : JS.object) :
  NoDup (map fst ctx) ->
  Multi.store (Multi.store ctx docs) docs = Multi.store ctx docs.
Proof.
  intro Hnd. apply object_ext.
  - apply store_nodup. now apply store_nodup.
  - apply store_again_keys. intros d Hd. now apply store_owns.
  - intro k. destruct (string_dec k "__proto__") as [->|Hk].
    + apply store_proto.
    + rewrite (store_lookup docs (Multi.store ctx docs) k Hk), (store_lookup docs ctx k Hk).
      now destruct (find _ (rev docs)).
Qed.

(** X22.  In any state the multi-document server reaches, uploading a batch
    a second time leaves the stored documents, their order and the prompt
    exactly as the first upload left them. *)
Theorem multi_upload_twice :
  forall PDFParser rs files,
    snd (Multi.upload PDFParser files
           (snd (Multi.upload PDFParser files (Multi.run PDFParser rs Multi.initial))))
    = snd (Multi.upload PDFParser files (Multi.run PDFParser rs Multi.initial))
    /\ fst (Multi.upload PDFParser files
              (snd (Multi.upload PDFParser files (Multi.run PDFParser rs Multi.initial))))
       = fst (Multi.upload PDFParser files (Multi.run PDFParser rs Multi.initial)).
Proof.
  intros PDFParser rs files. rewrite !multi_upload_eq. simpl.
  rewrite store_again; [now split|].
  rewrite multi_run_store. apply store_nodup. constructor.
Qed.

(** * Concrete sessions for the further properties *)

(** X1 at the first question after the report was uploaded. *)
Lemma api_call_carries_current_documents_witness :
  system {| messages := [user_turn "What was the revenue?"];
            system := Multi.build_prompt [("report.pdf", Sample.revenue)] |}
  = Multi.build_prompt
      (Multi.pdfContexts
         (Multi.run Sample.extractor [Multi.Upload [Sample.report]] Multi.initial))
  /\ system {| messages := [user_turn "What was the revenue?"];
               system := Single.build_prompt Sample.revenue |}
     = Single.build_prompt
         (Single.pdfContext
            (Single.run Sample.extractor [Single.Upload (Sample.pdf Sample.revenue)]
                        Single.initial)).
Proof.
  destruct api_call_carries_current_documents as [HM HS]. split.
  - apply (HM Sample.extractor [Multi.Upload [Sample.report]] (Sample.answers "$5M")
              "What was the revenue?").
    left. reflexivity.
  - apply (HS Sample.extractor [Single.Upload (Sample.pdf Sample.revenue)]
              (Sample.answers "$5M") "What was the revenue?").
    left. reflexivity.
Defined.

(** X2 at an upload made in the middle of a conversation. *)
Lemma ask_after_upload_is_fresh_witness :
  Multi.calls
    (Multi.ask (Sample.answers "$3M") "And the costs?"
       (snd (Multi.upload Sample.extractor [Sample.notes] Sample.multi_talking)))
  = [{| messages := [user_turn "And the costs?"];
        system :=
          Multi.build_prompt
            (Multi.pdfContexts
               (snd (Multi.upload Sample.extractor [Sample.notes] Sample.multi_talking))) |}]
  /\ Single.calls
       (Single.ask (Sample.answers "$3M") "And the costs?"
          (snd (Single.upload Sample.extractor (Sample.pdf "Costs were $3M.")
                              Sample.single_talking)))
     = [{| messages := [user_turn "And the costs?"];
           system := Single.build_prompt "Costs were $3M." |}].
Proof.
  destruct ask_after_upload_is_fresh as [HM HS]. split.
  - apply HM; discriminate.
  - apply HS; [discriminate | reflexivity | discriminate].
Defined.

(** X3 at a session that goes on after the report was stored. *)
Lemma multi_documents_never_removed_witness :
  JS.has_own "report.pdf"
    (Multi.pdfContexts
       (Multi.run Sample.extractor
          [Multi.Upload [Sample.broken]; Multi.Upload [Sample.notes]] Sample.multi_ready))
  = true
  /\ Multi.calls
       (Multi.ask (Sample.answers "$5M") "What was the revenue?"
          (Multi.run Sample.extractor
             [Multi.Upload [Sample.broken]; Multi.Upload [Sample.notes]] Sample.multi_ready))
     = [{| messages :=
             Multi.conversationHistory
               (Multi.run Sample.extractor
                  [Multi.Upload [Sample.broken]; Multi.Upload [Sample.notes]]
                  Sample.multi_ready)
               ++ [user_turn "What was the revenue?"];
           system :=
             Multi.systemPrompt
               (Multi.run Sample.extractor
                  [Multi.Upload [Sample.broken]; Multi.Upload [Sample.notes]]
                  Sample.multi_ready) |}].
Proof.
  destruct (multi_documents_never_removed Sample.extractor
              [Multi.Upload [Sample.broken]; Multi.Upload [Sample.notes]] Sample.multi_ready)
    as (H1 & _ & H3).
  split.
  - apply H1. reflexivity.
  - apply H3; discriminate.
Defined.

(** X4 at the session with the report and the notes. *)
Lemma multi_store_is_a_map_witness :
  In Sample.revenue
     (JS.values
        (Multi.pdfContexts
           (Multi.run Sample.extractor [Multi.Upload [Sample.report; Sample.notes]]
                      Multi.initial))).
Proof.
  destruct (multi_store_is_a_map Sample.extractor [Multi.Upload [Sample.report; Sample.notes]])
    as (_ & _ & H).
  apply H. exists "report.pdf". reflexivity.
Defined.

(** X5 at a batch that holds the report twice, the revised one last. *)
Lemma multi_upload_stores_text_witness :
  own_property
    (Multi.pdfContexts
       (snd (Multi.upload Sample.extractor
               ([Sample.report] ++ Visit.report_revised :: [Sample.notes]) Multi.initial)))
    "report.pdf"
  = Some "Revenue was $6M in 2024."
  /\ In "Revenue was $6M in 2024."
        (JS.values
           (Multi.pdfContexts
              (snd (Multi.upload Sample.extractor
                      ([Sample.report] ++ Visit.report_revised :: [Sample.notes])
                      Multi.initial)))).
Proof.
  apply (multi_upload_stores_text Sample.extractor [Sample.report] Visit.report_revised
           [Sample.notes] Multi.initial "Revenue was $6M in 2024.").
  - reflexivity.
  - discriminate.
  - intros g [<-|[]]. discriminate.
Defined.

(** X6 at the upload of the notes beside the stored report. *)
Lemma multi_upload_keeps_other_documents_witness :
  own_property
    (Multi.pdfContexts (snd (Multi.upload Sample.extractor [Sample.notes] Sample.multi_ready)))
    "report.pdf"
  = own_property (Multi.pdfContexts Sample.multi_ready) "report.pdf".
Proof.
  apply (multi_upload_keeps_other_documents Sample.extractor [Sample.notes]
           Sample.multi_ready "report.pdf").
  intros g [<-|[]]. discriminate.
Defined.

(** X7 at the upload of the revised report over the stored one. *)
Lemma multi_reupload_keeps_order_witness :
  JS.keys
    (Multi.pdfContexts
       (snd (Multi.upload Sample.extractor [Visit.report_revised] Sample.multi_ready)))
  = JS.keys (Multi.pdfContexts Sample.multi_ready).
Proof.
  apply (multi_reupload_keeps_order Sample.extractor [Visit.report_revised]
           Sample.multi_ready).
  intros g [<-|[]]. reflexivity.
Defined.

(** X8 at a PDF named [__proto__], uploaded first. *)
Lemma multi_proto_file_is_not_stored_witness :
  Multi.upload Sample.extractor [Visit.proto] Multi.initial
  = (success_message "PDFs uploaded and processed successfully: __proto__",
     {| Multi.pdfContexts := [];
        Multi.systemPrompt := Multi.build_prompt [];
        Multi.conversationHistory := [] |})
  /\ Multi.response
       (Multi.ask (Sample.answers "$5M") "What was the revenue?"
          (snd (Multi.upload Sample.extractor [Visit.proto] Multi.initial)))
     = failure "Please upload at least one PDF first.".
Proof.
  destruct (multi_proto_file_is_not_stored Sample.extractor Visit.proto Multi.initial
              Sample.revenue eq_refl eq_refl) as [H1 H2].
  split; [exact H1|].
  rewrite (H2 eq_refl (Sample.answers "$5M") "What was the revenue?"); [reflexivity|].
  discriminate.
Defined.

(** X9 at a PDF without text, uploaded over the stored report. *)
Lemma single_empty_text_blocks_questions_witness :
  fst (Single.upload Sample.extractor Visit.blank Sample.single_ready)
  = success_message "PDF uploaded and processed successfully."
  /\ Single.response
       (Single.ask (Sample.answers "$5M") "What was the revenue?"
          (snd (Single.upload Sample.extractor Visit.blank Sample.single_ready)))
     = failure "Please upload a PDF first.".
Proof.
  destruct (single_empty_text_blocks_questions Sample.extractor Visit.blank
              Sample.single_ready eq_refl) as [H1 H2].
  split; [exact H1|].
  rewrite (H2 (Sample.answers "$5M") "What was the revenue?"); [reflexivity|].
  discriminate.
Defined.

(** X10 at the revenue question, in both servers. *)
Lemma ask_calls_api_iff_witness :
  Multi.calls (Multi.ask (Sample.answers "$5M") "What was the revenue?" Sample.multi_ready)
  <> []
  /\ success
       (Single.response
          (Single.ask (Sample.answers "$5M") "What was the revenue?" Sample.single_ready))
     = true.
Proof.
  destruct ask_calls_api_iff as [HM HS]. split.
  - apply (proj1 (HM (Sample.answers "$5M") "What was the revenue?" Sample.multi_ready)).
    split; discriminate.
  - apply (proj2 (HS (Sample.answers "$5M") "What was the revenue?" Sample.single_ready)).
    split; [discriminate|]. split; [discriminate|]. exists "$5M". reflexivity.
Defined.



(** X15 at the revenue question, answered. *)
Lemma page_chat_mirrors_exchange_witness :
  Page.chat
    (fst (Page.askQuestion _ (Route.multi_ask (Sample.answers "$5M"))
            (Visit.typed "  What was the revenue? ") (Sample.multi_ready, [])))
  = [{| Page.className := "bg-blue-100 p-2 rounded mb-2";
        Page.textContent := "What was the revenue?" |};
     {| Page.className := "bg-green-100 p-2 rounded mb-2"; Page.textContent := "$5M" |}]
  /\ Page.chat
       (fst (Page.askQuestion _ (Route.single_ask (Sample.answers "$5M"))
               (Visit.typed "  What was the revenue? ") (Sample.single_ready, [])))
     = [{| Page.className := "bg-blue-100 p-2 rounded mb-2";
           Page.textContent := "What was the revenue?" |};
        {| Page.className := "bg-green-100 p-2 rounded mb-2"; Page.textContent := "$5M" |}].
Proof.
  destruct page_chat_mirrors_exchange as [HM HS]. split.
  - rewrite (HM (Sample.answers "$5M") (Visit.typed "  What was the revenue? ")
                Sample.multi_ready [] "What was the revenue?" "$5M");
      [reflexivity | reflexivity | discriminate | reflexivity].
  - rewrite (HS (Sample.answers "$5M") (Visit.typed "  What was the revenue? ")
                Sample.single_ready [] "What was the revenue?" "$5M");
      [reflexivity | reflexivity | discriminate | reflexivity].
Defined.

(** X16 at the revenue question, the model API refusing. *)
Lemma page_shows_failure_server_keeps_question_witness :
  Multi.conversationHistory
    (fst (snd (Page.askQuestion _ (Route.multi_ask (Sample.refuses "Network Error"))
                 (Visit.typed "What was the revenue?") (Sample.multi_ready, []))))
  = [user_turn "What was the revenue?"]
  /\ Page.chat
       (fst (Page.askQuestion _ (Route.single_ask (Sample.refuses "Network Error"))
               (Visit.typed "What was the revenue?") (Sample.single_ready, [])))
     = [{| Page.className := "bg-blue-100 p-2 rounded mb-2";
           Page.textContent := "What was the revenue?" |};
        {| Page.className := "bg-green-100 p-2 rounded mb-2";
           Page.textContent :=
             "Error: Failed to get response from Claude API: Network Error" |}]
  /\ Page.questionInput
       (fst (Page.askQuestion (list string)
               (fun question w => (inr "Failed to fetch", w ++ [question]))
               (Visit.typed "What was the revenue?") []))
     = "What was the revenue?".
Proof.
  destruct page_shows_failure_server_keeps_question as (H1 & H2 & H3). split; [|split].
  - rewrite (H2 (Sample.refuses "Network Error") (Visit.typed "What was the revenue?")
                Sample.multi_ready [] "What was the revenue?" "Network Error");
      [reflexivity | reflexivity | discriminate | reflexivity].
  - rewrite (H3 (Sample.refuses "Network Error") (Visit.typed "What was the revenue?")
                Sample.single_ready [] "What was the revenue?" "Network Error");
      [reflexivity | reflexivity | discriminate | reflexivity].
  - rewrite (H1 (list string) (fun question w => (inr "Failed to fetch", w ++ [question]))
                (Visit.typed "What was the revenue?") [] "What was the revenue?"
                "Failed to fetch" ["What was the revenue?"]);
      reflexivity.
Defined.

(** X17 at a choice of the report and a file over the limit. *)
Lemma page_posts_files_within_limit_witness :
  In (Page.too_large Visit.scan)
     (Page.alerts
        (fst (Page.handleFileUpload _
                (fun body w => (inl (success_message "ok"), w ++ [body]))
                [Visit.report; Visit.scan] Page.initial []))).
Proof.
  apply (proj2 (page_posts_files_within_limit (inl (success_message "ok"))
                  [Visit.report; Visit.scan] Page.initial [])).
  - right. left. reflexivity.
  - reflexivity.
Defined.



(** X20 at a choice of a file that is not a PDF and a file over the limit. *)
Lemma page_announces_upload_without_documents_witness :
  Page.chat
    (fst (Page.handleFileUpload _ (Route.multi_upload Sample.extractor)
            [Visit.broken; Visit.scan] Page.initial (Multi.initial, [])))
  = [{| Page.className := "bg-green-100 p-2 rounded mb-2";
        Page.textContent :=
          "PDFs uploaded successfully. You can now ask questions about their content." |}]
  /\ Multi.response
       (Multi.ask (Sample.answers "$5M") "What was the revenue?"
          (fst (snd (Page.handleFileUpload _ (Route.multi_upload Sample.extractor)
                       [Visit.broken; Visit.scan] Page.initial (Multi.initial, [])))))
     = failure "Please upload at least one PDF first.".
Proof.
  destruct (page_announces_upload_without_documents Sample.extractor
              [Visit.broken; Visit.scan] Page.initial Multi.initial [])
    as (H1 & _ & H3).
  - intros f [<-|[<-|[]]] Hl.
    + exists "Invalid PDF structure". reflexivity.
    + discriminate.
  - split; [exact H1|]. apply H3; [reflexivity | discriminate].
Defined.

(** X21 at the report, and at a file that is not a PDF. *)
Lemma single_page_upload_witness :
  Page.alerts
    (fst (Page.uploadPDF _ (Route.single_upload Sample.extractor) [Visit.report]
            Page.initial (Single.initial, [])))
  = ["PDF uploaded and processed successfully."]
  /\ Page.uploadPDF _ (Route.single_upload Sample.extractor) [Visit.broken]
       Page.initial (Sample.single_talking, [])
     = (Page.alert "Error processing PDF: Invalid PDF structure" Page.initial,
        (Sample.single_talking, [])).
Proof.
  destruct single_page_upload as (_ & H2 & H3). split.
  - rewrite (H2 Sample.extractor Visit.report [] Page.initial Single.initial []
                Sample.revenue); reflexivity.
  - rewrite (H3 Sample.extractor Visit.broken [] Page.initial Sample.single_talking []
                "Invalid PDF structure"); reflexivity.
Defined.
